(** * build_factory_image: byte layout of the AP5030DN factory image

    A shallow embedding of [build_factory_image.py].  Python [bytes] are
    lists of [Byte.byte], Python [int]s are [Z], exceptions are an explicit
    result type, and the file system together with the console is a world
    record threaded through a small state-and-error monad. *)

From Stdlib Require Import ZArith List Lia Bool.
From Stdlib Require Import Strings.Byte Ascii String DecimalString HexString.
From stdpp Require Import base gmap strings list.
Import ListNotations.
Local Open Scope Z_scope.

(** ** Bytes and integers *)

Abbreviation bytes := (list Byte.byte).

(** [len(b)] as a Python integer. *)
Definition len (b : bytes) : Z := Z.of_nat (length b).

Definition Z_of_byte (b : Byte.byte) : Z := Z.of_N (Byte.to_N b).

Definition byte_of_Z (z : Z) : Byte.byte :=
  match Byte.of_N (Z.to_N (z mod 256)) with
  | Some b => b
  | None => x00
  end.

(** [b * n] on bytes: the empty string when [n <= 0]. *)
Definition bytes_mul (b : bytes) (n : Z) : bytes :=
  List.concat (List.repeat b (Z.to_nat n)).

(** [b[n:]] for a non-negative literal [n]. *)
Definition slice_from (n : nat) (b : bytes) : bytes := drop n b.

(** ** Exceptions *)

Inductive exn : Type :=
| OverflowError
| ZeroDivisionError
| OSError (path : string)
| SystemExit (code : Z).

Inductive result (A : Type) : Type :=
| Ok (a : A)
| Raise (e : exn).
Arguments Ok {A} a.
Arguments Raise {A} e.

Definition rbind {A B} (r : result A) (k : A -> result B) : result B :=
  match r with
  | Ok a => k a
  | Raise e => Raise e
  end.

(** ** [int.to_bytes(length, byteorder="little")] *)

Fixpoint le_digits (length : nat) (n : Z) : bytes :=
  match length with
  | O => []
  | S k => byte_of_Z (n mod 256) :: le_digits k (n / 256)
  end.

Definition to_bytes (n : Z) (length : nat) : result bytes :=
  if (0 <=? n) && (n <? 256 ^ Z.of_nat length)
  then Ok (le_digits length n)
  else Raise OverflowError.

(** Reading a little-endian unsigned integer back ([int.from_bytes]); used
    only to state what a field of the metadata block holds. *)
Fixpoint from_bytes (b : bytes) : Z :=
  match b with
  | [] => 0
  | x :: r => Z_of_byte x + 256 * from_bytes r
  end.

(** ** [zlib.crc32]

    The bit-at-a-time form of the reflected CRC-32 of ISO 3309 / RFC 1952
    that zlib tabulates: register preset to all ones, polynomial
    [0xEDB88320], result complemented. *)

Definition crc32_poly : Z := 0xEDB88320.

Definition crc32_shift (c : Z) : Z :=
  if Z.testbit c 0
  then Z.lxor (Z.shiftr c 1) crc32_poly
  else Z.shiftr c 1.

Definition crc32_byte (c : Z) (b : Byte.byte) : Z :=
  Nat.iter 8 crc32_shift (Z.lxor c (Z_of_byte b)).

Definition crc32 (data : bytes) : Z :=
  Z.lxor (fold_left crc32_byte data 0xFFFFFFFF) 0xFFFFFFFF.

(** ** The metadata record *)

Record Metadata : Type := mkMetadata {
  crc32_checksum : Z;
  primary_kernel_size : Z;
  squashfs_size : Z;
  uboot_size : Z;
  backup_kernel_size : Z
}.

Definition pack_metadata (self : Metadata) : result bytes :=
  rbind (to_bytes (crc32_checksum self) 4) (fun f1 =>
  rbind (to_bytes (primary_kernel_size self) 4) (fun f2 =>
  rbind (to_bytes (squashfs_size self) 4) (fun f3 =>
  rbind (to_bytes (uboot_size self) 4) (fun f4 =>
  let reserved := bytes_mul [x00; x00; x00; x00] 3 in
  let seven := [x07; x00; x00; x00] in
  rbind (to_bytes (backup_kernel_size self + 40) 4) (fun f7 =>
  rbind (to_bytes 2 4) (fun f8 =>
  Ok (f1 ++ f2 ++ f3 ++ f4 ++ reserved ++ seven ++ f7 ++ f8
        ++ [x70; x05; x00; x00]))))))).

(** ** [append_data] *)

Definition append_data (original data : bytes) (alignment : Z)
  : result (bytes * Z) :=
  if alignment =? 0 then Raise ZeroDivisionError
  else
    let data :=
      data ++ bytes_mul [x00]
                (alignment - ((len original + len data) mod alignment)) in
    Ok (original ++ data, len data).

(** ** String formatting used by the progress lines *)

(** [format(n, "d")] *)
Definition fmt_dec (n : Z) : string := NilZero.string_of_int (Z.to_int n).

(** [format(n, "x")] *)
Definition fmt_hex (n : Z) : string :=
  match n with
  | Z0 => "0"
  | Zpos p => HexString.Raw.of_pos p ""
  | Zneg p => "-" ++ HexString.Raw.of_pos p ""
  end.

(** [f"{name} size: {n} / 0x{n:x}"] *)
Definition size_line (name : string) (n : Z) : string :=
  name ++ " size: " ++ fmt_dec n ++ " / 0x" ++ fmt_hex n.

(** ** The world: files, console, and the order of the I/O operations *)

Inductive event : Type :=
| EvOpenRead (path : string)
| EvOpenWrite (path : string)
| EvPrint (line : string)
| EvUsageError.

(** [files] maps a path to the contents of a readable file; a path outside
    its domain cannot be opened for reading.  [locked] holds the paths that
    cannot be opened for writing.  [trace] lists the operations performed
    so far, oldest first. *)
Record World : Type := mkWorld {
  files : gmap string bytes;
  locked : gset string;
  trace : list event
}.

Definition log (e : event) (w : World) : World :=
  mkWorld (files w) (locked w) (trace w ++ [e]).

Definition IO (A : Type) : Type := World -> result A * World.

Definition ret {A} (a : A) : IO A := fun w => (Ok a, w).

Definition bind {A B} (m : IO A) (k : A -> IO B) : IO B :=
  fun w =>
    match m w with
    | (Ok a, w') => k a w'
    | (Raise e, w') => (Raise e, w')
    end.

Definition lift {A} (r : result A) : IO A := fun w => (r, w).

Notation "x <- m ;; k" := (bind m (fun x => k))
  (at level 100, m at next level, right associativity).

(** [print(line)] *)
Definition print (line : string) : IO unit :=
  fun w => (Ok tt, log (EvPrint line) w).

(** [with open(path, "rb") as f: return f.read()] *)
Definition load_binary (path : string) : IO bytes :=
  fun w =>
    match files w !! path with
    | Some b => (Ok b, log (EvOpenRead path) w)
    | None => (Raise (OSError path), log (EvOpenRead path) w)
    end.

(** [with open(path, "wb") as f: f.write(data)] *)
Definition write_binary (path : string) (data : bytes) : IO unit :=
  fun w =>
    if decide (path ∈ locked w)
    then (Raise (OSError path), log (EvOpenWrite path) w)
    else (Ok tt, mkWorld (<[path := data]> (files w)) (locked w)
                         (trace w ++ [EvOpenWrite path])).

(** ** Module-level globals: the four static blobs *)

Record Statics : Type := mkStatics {
  header_data : bytes;
  uboot_data : bytes;
  metadata_header_data : bytes;
  metadata_footer_data : bytes
}.

Definition load_statics : IO Statics :=
  h <- load_binary "static/header.bin" ;;
  u <- load_binary "static/uboot.bin" ;;
  mh <- load_binary "static/metadata_header.bin" ;;
  mf <- load_binary "static/metadata_footer.bin" ;;
  ret (mkStatics h u mh mf).

(** ** Command line

    The command line is represented by the values it supplies for the four
    arguments the parser declares; how argparse splits [sys.argv] into
    them is library behaviour and is not modelled. *)

Record Cmdline : Type := mkCmdline {
  cl_output : option string;
  cl_kernel : option string;
  cl_rootfs : option string;
  cl_ramdisk : option string
}.

Record Namespace : Type := mkNamespace {
  output : string;
  kernel : string;
  rootfs : string;
  ramdisk : option string
}.

(** A missing required argument makes argparse report the usage error and
    exit with status 2. *)
Definition parse_args (argv : Cmdline) : IO Namespace :=
  match cl_output argv, cl_kernel argv, cl_rootfs argv with
  | Some o, Some k, Some r => ret (mkNamespace o k r (cl_ramdisk argv))
  | _, _, _ => fun w => (Raise (SystemExit 2), log EvUsageError w)
  end.

(** Truth value of [args.ramdisk]: [None] and the empty string are false. *)
Definition truthy (s : option string) : option string :=
  match s with
  | Some EmptyString => None
  | other => other
  end.

Definition load_user_data (args : Namespace) : IO (bytes * bytes * bytes) :=
  kernel_data <- load_binary (kernel args) ;;
  rootfs_data <- load_binary (rootfs args) ;;
  ramdisk_data <- match truthy (ramdisk args) with
                  | Some p => load_binary p
                  | None => ret kernel_data
                  end ;;
  ret (kernel_data, rootfs_data, ramdisk_data).

(** ** [main] and the script *)

Definition main (st : Statics) (argv : Cmdline) : IO unit :=
  let alignment := 16 in
  args <- parse_args argv ;;
  user_data <- load_user_data args ;;
  let '(kernel_data, rootfs_data, ramdisk_data) := user_data in
  let final_data := header_data st in
  appended <- lift (append_data final_data rootfs_data alignment) ;;
  let '(final_data, rootfs_len) := appended in
  appended <- lift (append_data final_data kernel_data alignment) ;;
  let '(final_data, kernel_len) := appended in
  appended <- lift (append_data final_data (uboot_data st) alignment) ;;
  let '(final_data, uboot_len) := appended in
  appended <- lift (append_data final_data ramdisk_data alignment) ;;
  let '(final_data, ramdisk_len) := appended in
  let final_data := final_data ++ metadata_header_data st in
  _ <- print (size_line "Rootfs" rootfs_len) ;;
  _ <- print (size_line "Kernel" kernel_len) ;;
  _ <- print (size_line "Uboot" uboot_len) ;;
  _ <- print (size_line "Ramdisk" ramdisk_len) ;;
  let crc32_checksum := crc32 (slice_from 32 final_data) in
  let metadata :=
    {| crc32_checksum := crc32_checksum;
       primary_kernel_size := kernel_len;
       squashfs_size := rootfs_len;
       uboot_size := uboot_len;
       backup_kernel_size := ramdisk_len |} in
  packed <- lift (pack_metadata metadata) ;;
  let final_data := final_data ++ packed in
  let final_data := final_data ++ metadata_footer_data st in
  write_binary (output args) final_data.

(** Running the file as a script: the module body loads the static blobs,
    then [main] runs. *)
Definition script (argv : Cmdline) : IO unit :=
  st <- load_statics ;;
  main st argv.

(** ** Names for the values of [main]'s local variables

    With alignment 16, [padded original data] is the value of [data] after
    the padding has been added in [append_data].  Inside [Layout] the
    successive values of [final_data] are named, for given static blobs
    [st] and loaded kernel [k], rootfs [r] and secondary kernel [d]. *)

Definition padding (original data : bytes) : Z :=
  16 - (len original + len data) mod 16.

Definition padded (original data : bytes) : bytes :=
  data ++ bytes_mul [x00] (padding original data).

Section Layout.
Variables (st : Statics) (k r d : bytes).

Definition rootfs_section : bytes := padded (header_data st) r.
Definition buf_rootfs : bytes := header_data st ++ rootfs_section.
Definition kernel_section : bytes := padded buf_rootfs k.
Definition buf_kernel : bytes := buf_rootfs ++ kernel_section.
Definition uboot_section : bytes := padded buf_kernel (uboot_data st).
Definition buf_uboot : bytes := buf_kernel ++ uboot_section.
Definition ramdisk_section : bytes := padded buf_uboot d.
Definition buf_ramdisk : bytes := buf_uboot ++ ramdisk_section.

(** [final_data] once the metadata-header template has been appended. *)
Definition buf_checksummed : bytes :=
  buf_ramdisk ++ metadata_header_data st.

Definition metadata_of : Metadata :=
  {| crc32_checksum := crc32 (slice_from 32 buf_checksummed);
     primary_kernel_size := len kernel_section;
     squashfs_size := len rootfs_section;
     uboot_size := len uboot_section;
     backup_kernel_size := len ramdisk_section |}.
End Layout.

(** The paths the script opens for reading, in the order it opens them. *)
Definition static_paths : list string :=
  ["static/header.bin"; "static/uboot.bin";
   "static/metadata_header.bin"; "static/metadata_footer.bin"].

Definition user_paths (argv : Cmdline) : list string :=
  match cl_kernel argv with Some p => [p] | None => [] end
  ++ match cl_rootfs argv with Some p => [p] | None => [] end
  ++ match truthy (cl_ramdisk argv) with Some p => [p] | None => [] end.

Definition input_paths (argv : Cmdline) : list string :=
  static_paths ++ user_paths argv.

Definition is_write (e : event) : bool :=
  match e with EvOpenWrite _ => true | _ => false end.

Definition progress_lines (m : Metadata) : list event :=
  [EvPrint (size_line "Rootfs" (squashfs_size m));
   EvPrint (size_line "Kernel" (primary_kernel_size m));
   EvPrint (size_line "Uboot" (uboot_size m));
   EvPrint (size_line "Ramdisk" (backup_kernel_size m))].

(** The four size and checksum conditions under which every [to_bytes]
    call of [pack_metadata] succeeds. *)
Definition fits (m : Metadata) : Prop :=
  0 <= crc32_checksum m < 2 ^ 32 /\
  0 <= primary_kernel_size m < 2 ^ 32 /\
  0 <= squashfs_size m < 2 ^ 32 /\
  0 <= uboot_size m < 2 ^ 32 /\
  0 <= backup_kernel_size m + 40 < 2 ^ 32.

(** The eleven words [pack_metadata] lays out, as integers. *)
Definition metadata_words (m : Metadata) : list Z :=
  [crc32_checksum m; primary_kernel_size m; squashfs_size m; uboot_size m;
   0; 0; 0; 0x00000007; backup_kernel_size m + 40; 0x00000002; 0x00000570].

(** ** Vocabulary for statements about a run *)

(** The world [w] after the events [t] have been appended to its trace. *)
Definition logs (t : list event) (w : World) : World :=
  mkWorld (files w) (locked w) (trace w ++ t).

(** Where the secondary kernel's raw bytes come from: the [--ramdisk] file
    when that option is given and non-empty, the kernel's bytes otherwise. *)
Definition secondary (argv : Cmdline) (fs : gmap string bytes) (k : bytes)
  : option bytes :=
  match truthy (cl_ramdisk argv) with
  | Some p => fs !! p
  | None => Some k
  end.

(** A trace in which no file is opened for writing. *)
Definition quiet (t : list event) : Prop :=
  Forall (fun ev => is_write ev = false) t.

(** The four static blobs are readable and hold [st]. *)
Definition statics_in (fs : gmap string bytes) (st : Statics) : Prop :=
  fs !! "static/header.bin" = Some (header_data st) /\
  fs !! "static/uboot.bin" = Some (uboot_data st) /\
  fs !! "static/metadata_header.bin" = Some (metadata_header_data st) /\
  fs !! "static/metadata_footer.bin" = Some (metadata_footer_data st).

(** The command line names output [o], and the caller-supplied images are
    readable and hold kernel [k], rootfs [r] and secondary kernel [d]. *)
Definition user_in (argv : Cmdline) (fs : gmap string bytes)
           (o : string) (k r d : bytes) : Prop :=
  cl_output argv = Some o /\
  (exists kp, cl_kernel argv = Some kp /\ fs !! kp = Some k) /\
  (exists rp, cl_rootfs argv = Some rp /\ fs !! rp = Some r) /\
  secondary argv fs k = Some d.


(** ** A small concrete run

    A 32-byte zero header, a 17-byte rootfs, a 16-byte kernel, a one-byte
    bootloader, a two-byte metadata-header template and a one-byte footer;
    no [--ramdisk]. *)

Definition demo_statics : Statics :=
  mkStatics (List.repeat x00 32) [xcc] [x4d; x48] [x46].

Definition demo_kernel : bytes := List.repeat xbb 16.

Definition demo_rootfs : bytes := List.repeat xaa 17.

Definition demo_files : gmap string bytes :=
  <["static/header.bin" := header_data demo_statics]>
  (<["static/uboot.bin" := uboot_data demo_statics]>
  (<["static/metadata_header.bin" := metadata_header_data demo_statics]>
  (<["static/metadata_footer.bin" := metadata_footer_data demo_statics]>
  (<["kernel.bin" := demo_kernel]>
  (<["rootfs.bin" := demo_rootfs]> ∅))))).

Definition demo_world : World := mkWorld demo_files ∅ [].

Definition demo_argv : Cmdline :=
  mkCmdline (Some "out.bin") (Some "kernel.bin") (Some "rootfs.bin") None.

(** * Properties *)

(** ** Bytes and little-endian words *)

Lemma Z_of_byte_range (b : Byte.byte) : 0 <= Z_of_byte b < 256.
Proof.
  unfold Z_of_byte. pose proof (Byte.to_N_bounded b). lia.
Qed.

Lemma Z_of_byte_of_Z (z : Z) : Z_of_byte (byte_of_Z z) = z mod 256.
Proof.
  unfold Z_of_byte, byte_of_Z.
  assert (Hr : 0 <= z mod 256 < 256) by (apply Z.mod_pos_bound; lia).
  destruct (Byte.of_N (Z.to_N (z mod 256))) as [b|] eqn:E.
  - apply Byte.to_of_N in E. rewrite E. lia.
  - apply Byte.of_N_None_iff in E. lia.
Qed.

Lemma length_le_digits (n : nat) (z : Z) : length (le_digits n z) = n.
Proof.
  revert z. induction n as [|n IH]; intros z; simpl; [reflexivity|].
  now rewrite IH.
Qed.

Lemma from_bytes_le_digits (n : nat) (z : Z) :
  from_bytes (le_digits n z) = z mod 256 ^ Z.of_nat n.
Proof.
  revert z. induction n as [|n IH]; intros z.
  - simpl. now rewrite Z.mod_1_r.
  - cbn [le_digits from_bytes]. rewrite Z_of_byte_of_Z, IH.
    rewrite Nat2Z.inj_succ, Z.pow_succ_r by lia.
    rewrite Z.rem_mul_r, Z.mod_mod by lia. reflexivity.
Qed.

Lemma to_bytes_ok (z : Z) (n : nat) :
  0 <= z < 256 ^ Z.of_nat n -> to_bytes z n = Ok (le_digits n z).
Proof.
  intros [H0 H1]. unfold to_bytes.
  apply Z.leb_le in H0. apply Z.ltb_lt in H1. now rewrite H0, H1.
Qed.

Lemma to_bytes_overflow (z : Z) (n : nat) :
  z < 0 \/ 256 ^ Z.of_nat n <= z -> to_bytes z n = Raise OverflowError.
Proof.
  intros H. unfold to_bytes.
  destruct (0 <=? z) eqn:E0; [|reflexivity].
  destruct (z <? 256 ^ Z.of_nat n) eqn:E1; [|reflexivity].
  apply Z.leb_le in E0. apply Z.ltb_lt in E1. lia.
Qed.

Lemma to_bytes_inv (z : Z) (n : nat) (b : bytes) :
  to_bytes z n = Ok b -> 0 <= z < 256 ^ Z.of_nat n /\ b = le_digits n z.
Proof.
  unfold to_bytes.
  destruct (0 <=? z) eqn:E0; [|discriminate].
  destruct (z <? 256 ^ Z.of_nat n) eqn:E1; [|discriminate].
  apply Z.leb_le in E0. apply Z.ltb_lt in E1.
  intros [= <-]. split; [lia|reflexivity].
Qed.

Lemma from_bytes_word (z : Z) :
  0 <= z < 2 ^ 32 -> from_bytes (le_digits 4 z) = z.
Proof.
  intros H. rewrite from_bytes_le_digits.
  change (256 ^ Z.of_nat 4) with (2 ^ 32). now apply Z.mod_small.
Qed.

(** ** The checksum is a 32-bit value *)

Lemma lxor_below (n a b : Z) :
  0 < n -> 0 <= a < 2 ^ n -> 0 <= b < 2 ^ n -> 0 <= Z.lxor a b < 2 ^ n.
Proof.
  intros Hn Ha Hb.
  assert (H0 : 0 <= Z.lxor a b) by (apply Z.lxor_nonneg; lia).
  split; [exact H0|].
  destruct (Z.eq_dec (Z.lxor a b) 0) as [->|Hne].
  - apply Z.pow_pos_nonneg; lia.
  - apply Z.log2_lt_pow2; [lia|].
    pose proof (Z.log2_lxor a b (proj1 Ha) (proj1 Hb)) as Hl.
    assert (Z.log2 a < n).
    { destruct (Z.eq_dec a 0) as [->|]; [simpl; lia|].
      apply Z.log2_lt_pow2; lia. }
    assert (Z.log2 b < n).
    { destruct (Z.eq_dec b 0) as [->|]; [simpl; lia|].
      apply Z.log2_lt_pow2; lia. }
    lia.
Qed.

Lemma crc32_shift_range (c : Z) :
  0 <= c < 2 ^ 32 -> 0 <= crc32_shift c < 2 ^ 32.
Proof.
  intros Hc. unfold crc32_shift.
  assert (Hs : 0 <= Z.shiftr c 1 < 2 ^ 32).
  { rewrite Z.shiftr_div_pow2 by lia. change (2 ^ 1) with 2.
    split; [apply Z.div_pos; lia|].
    apply Z.div_lt_upper_bound; lia. }
  destruct (Z.testbit c 0); [|exact Hs].
  apply lxor_below; [lia|exact Hs|]. unfold crc32_poly. lia.
Qed.

Lemma crc32_byte_range (c : Z) (b : Byte.byte) :
  0 <= c < 2 ^ 32 -> 0 <= crc32_byte c b < 2 ^ 32.
Proof.
  intros Hc. unfold crc32_byte.
  assert (Hx : 0 <= Z.lxor c (Z_of_byte b) < 2 ^ 32).
  { apply lxor_below; [lia|exact Hc|]. pose proof (Z_of_byte_range b). lia. }
  revert Hx. generalize (Z.lxor c (Z_of_byte b)). intros x Hx.
  cbn [Nat.iter nat_rect]. do 8 apply crc32_shift_range. exact Hx.
Qed.

Lemma crc32_range (data : bytes) : 0 <= crc32 data < 2 ^ 32.
Proof.
  unfold crc32. apply lxor_below; [lia| |lia].
  assert (H : 0 <= 0xFFFFFFFF < 2 ^ 32) by lia.
  revert H. generalize 0xFFFFFFFF.
  induction data as [|b data IH]; intros c Hc; simpl; [exact Hc|].
  apply IH. now apply crc32_byte_range.
Qed.

(** ** [append_data] with alignment 16 *)

Lemma bytes_mul_zero (n : Z) : bytes_mul [x00] n = List.repeat x00 (Z.to_nat n).
Proof.
  unfold bytes_mul. induction (Z.to_nat n) as [|m IH]; simpl; [reflexivity|].
  now rewrite IH.
Qed.

Lemma len_app (a b : bytes) : len (a ++ b) = len a + len b.
Proof. unfold len. rewrite length_app. lia. Qed.

Lemma padding_range (original data : bytes) :
  1 <= padding original data <= 16.
Proof.
  unfold padding.
  pose proof (Z.mod_pos_bound (len original + len data) 16). lia.
Qed.

Lemma len_padded (original data : bytes) :
  len (padded original data) = len data + padding original data.
Proof.
  unfold padded. rewrite len_app, bytes_mul_zero. unfold len at 2.
  rewrite repeat_length. pose proof (padding_range original data). lia.
Qed.

Lemma append_data_padded (original data : bytes) :
  append_data original data 16 =
    Ok (original ++ padded original data, len (padded original data)).
Proof. reflexivity. Qed.

Lemma len_padded_total (original data : bytes) :
  (len (original ++ padded original data)) mod 16 = 0.
Proof.
  rewrite len_app, len_padded. unfold padding.
  replace (len original + (len data + (16 - (len original + len data) mod 16)))
    with ((len original + len data) - (len original + len data) mod 16 + 1 * 16)
    by lia.
  rewrite Z.mod_add by lia.
  rewrite Zminus_mod, Z.mod_mod, Z.sub_diag by lia. reflexivity.
Qed.

Lemma len_padded_aligned (original data : bytes) :
  len original mod 16 = 0 -> len (padded original data) mod 16 = 0.
Proof.
  intros Ho. pose proof (len_padded_total original data) as Ht.
  rewrite len_app in Ht.
  rewrite <- Z.add_mod_idemp_l, Ho in Ht by lia. exact Ht.
Qed.

(** ** [pack_metadata] *)

Lemma pack_metadata_fits (m : Metadata) :
  fits m ->
  pack_metadata m = Ok (List.concat (map (le_digits 4) (metadata_words m))).
Proof.
  intros (Hc & Hk & Hs & Hu & Hb). unfold pack_metadata.
  rewrite !to_bytes_ok by (change (256 ^ Z.of_nat 4) with (2 ^ 32); lia).
  reflexivity.
Qed.

Lemma pack_metadata_overflow (m : Metadata) :
  ~ fits m -> pack_metadata m = Raise OverflowError.
Proof.
  intros Hn. unfold pack_metadata, rbind.
  destruct (to_bytes (crc32_checksum m) 4) as [b1|e1] eqn:E1.
  2:{ unfold to_bytes in E1. destruct (_ && _); now inversion E1. }
  destruct (to_bytes (primary_kernel_size m) 4) as [b2|e2] eqn:E2.
  2:{ unfold to_bytes in E2. destruct (_ && _); now inversion E2. }
  destruct (to_bytes (squashfs_size m) 4) as [b3|e3] eqn:E3.
  2:{ unfold to_bytes in E3. destruct (_ && _); now inversion E3. }
  destruct (to_bytes (uboot_size m) 4) as [b4|e4] eqn:E4.
  2:{ unfold to_bytes in E4. destruct (_ && _); now inversion E4. }
  destruct (to_bytes (backup_kernel_size m + 40) 4) as [b7|e7] eqn:E7.
  2:{ unfold to_bytes in E7. destruct (_ && _); now inversion E7. }
  exfalso. apply Hn.
  apply to_bytes_inv in E1, E2, E3, E4, E7.
  change (256 ^ Z.of_nat 4) with (2 ^ 32) in *.
  unfold fits. tauto.
Qed.

Lemma pack_metadata_inv (m : Metadata) (b : bytes) :
  pack_metadata m = Ok b ->
  fits m /\ b = List.concat (map (le_digits 4) (metadata_words m)).
Proof.
  intros H.
  assert (Hf : fits m).
  { destruct (Z_le_dec 0 (crc32_checksum m));
    destruct (Z_lt_dec (crc32_checksum m) (2 ^ 32));
    destruct (Z_le_dec 0 (primary_kernel_size m));
    destruct (Z_lt_dec (primary_kernel_size m) (2 ^ 32));
    destruct (Z_le_dec 0 (squashfs_size m));
    destruct (Z_lt_dec (squashfs_size m) (2 ^ 32));
    destruct (Z_le_dec 0 (uboot_size m));
    destruct (Z_lt_dec (uboot_size m) (2 ^ 32));
    destruct (Z_le_dec 0 (backup_kernel_size m + 40));
    destruct (Z_lt_dec (backup_kernel_size m + 40) (2 ^ 32));
    try (unfold fits; tauto);
    (rewrite pack_metadata_overflow in H;
     [discriminate | unfold fits; lia]). }
  split; [exact Hf|]. rewrite pack_metadata_fits in H by exact Hf.
  now inversion H.
Qed.

Lemma length_metadata_block (m : Metadata) :
  length (List.concat (map (le_digits 4) (metadata_words m))) = 44%nat.
Proof. reflexivity. Qed.

Lemma metadata_block_word (m : Metadata) (i : nat) (word : Z) :
  fits m ->
  metadata_words m !! i = Some word ->
  from_bytes (take 4 (drop (4 * i)
     (List.concat (map (le_digits 4) (metadata_words m))))) = word.
Proof.
  intros (Hc & Hk & Hs & Hu & Hb) Hi.
  do 11 (destruct i as [|i];
         [injection Hi as <-; apply from_bytes_word; simpl; lia|]).
  discriminate Hi.
Qed.

(** ** Running the script *)


Lemma logs_logs (t1 t2 : list event) (w : World) :
  logs t2 (logs t1 w) = logs (t1 ++ t2) w.
Proof. unfold logs. cbn. now rewrite app_assoc. Qed.

Lemma bind_Ok {A B} (m : IO A) (f : A -> IO B) (w w1 : World) (a : A) :
  m w = (Ok a, w1) -> bind m f w = f a w1.
Proof. intros H. unfold bind. now rewrite H. Qed.

Lemma bind_Raise {A B} (m : IO A) (f : A -> IO B) (w w1 : World) (e : exn) :
  m w = (Raise e, w1) -> bind m f w = (Raise e, w1).
Proof. intros H. unfold bind. now rewrite H. Qed.

Lemma bind_ret {A B} (a : A) (f : A -> IO B) (w : World) :
  bind (ret a) f w = f a w.
Proof. reflexivity. Qed.

Lemma bind_lift {A B} (r : result A) (f : A -> IO B) (w : World) :
  bind (lift r) f w =
    match r with Ok a => f a w | Raise e => (Raise e, w) end.
Proof. unfold bind, lift. now destruct r. Qed.

Lemma bind_print {B} (line : string) (f : unit -> IO B) (t : list event)
      (w : World) :
  bind (print line) f (logs t w) = f tt (logs (t ++ [EvPrint line]) w).
Proof. unfold bind, print, log. now rewrite <- logs_logs. Qed.

Lemma load_binary_Some (p : string) (b : bytes) (t : list event) (w : World) :
  files w !! p = Some b ->
  load_binary p (logs t w) = (Ok b, logs (t ++ [EvOpenRead p]) w).
Proof.
  intros H. unfold load_binary. cbn [files logs]. rewrite H.
  unfold log. now rewrite <- logs_logs.
Qed.

Lemma load_binary_None (p : string) (t : list event) (w : World) :
  files w !! p = None ->
  load_binary p (logs t w) = (Raise (OSError p), logs (t ++ [EvOpenRead p]) w).
Proof.
  intros H. unfold load_binary. cbn [files logs]. rewrite H.
  unfold log. now rewrite <- logs_logs.
Qed.

Lemma logs_nil (w : World) : logs [] w = w.
Proof. destruct w. unfold logs. cbn. now rewrite app_nil_r. Qed.

Lemma load_statics_Some (w : World) (t : list event) (h u mh mf : bytes) :
  files w !! "static/header.bin" = Some h ->
  files w !! "static/uboot.bin" = Some u ->
  files w !! "static/metadata_header.bin" = Some mh ->
  files w !! "static/metadata_footer.bin" = Some mf ->
  load_statics (logs t w) =
    (Ok (mkStatics h u mh mf), logs (t ++ map EvOpenRead static_paths) w).
Proof.
  intros Hh Hu Hmh Hmf. unfold load_statics.
  rewrite (bind_Ok _ _ _ _ _ (load_binary_Some _ _ _ _ Hh)).
  rewrite (bind_Ok _ _ _ _ _ (load_binary_Some _ _ _ _ Hu)).
  rewrite (bind_Ok _ _ _ _ _ (load_binary_Some _ _ _ _ Hmh)).
  rewrite (bind_Ok _ _ _ _ _ (load_binary_Some _ _ _ _ Hmf)).
  unfold ret. now rewrite <- !app_assoc.
Qed.

Lemma main_run (st : Statics) (argv : Cmdline) (w : World) (t : list event)
      (o kp rp : string) (k r d : bytes) :
  cl_output argv = Some o -> cl_kernel argv = Some kp ->
  cl_rootfs argv = Some rp ->
  files w !! kp = Some k -> files w !! rp = Some r ->
  secondary argv (files w) k = Some d ->
  let m := metadata_of st k r d in
  let t' := t ++ map EvOpenRead (user_paths argv) ++ progress_lines m in
  main st argv (logs t w) =
    match pack_metadata m with
    | Ok blk =>
        if decide (o ∈ locked w)
        then (Raise (OSError o), logs (t' ++ [EvOpenWrite o]) w)
        else (Ok tt,
              mkWorld (<[o := (buf_checksummed st k r d ++ blk)
                               ++ metadata_footer_data st]> (files w))
                      (locked w) (trace w ++ t' ++ [EvOpenWrite o]))
    | Raise e => (Raise e, logs t' w)
    end.
Proof.
  intros Ho Hk Hr Hkd Hrd Hd m t'.
  unfold main, parse_args. rewrite Ho, Hk, Hr. cbv beta iota.
  rewrite bind_ret.
  assert (Hl : load_user_data (mkNamespace o kp rp (cl_ramdisk argv)) (logs t w)
               = (Ok (k, r, d), logs (t ++ map EvOpenRead (user_paths argv)) w)).
  { unfold load_user_data. cbn [kernel rootfs ramdisk].
    rewrite (bind_Ok _ _ _ _ _ (load_binary_Some _ _ _ _ Hkd)).
    rewrite (bind_Ok _ _ _ _ _ (load_binary_Some _ _ _ _ Hrd)).
    unfold user_paths, secondary in *. rewrite Hk, Hr.
    destruct (truthy (cl_ramdisk argv)) as [p|].
    - rewrite (bind_Ok _ _ _ _ _ (load_binary_Some _ _ _ _ Hd)).
      unfold ret. cbn. now rewrite <- !app_assoc.
    - injection Hd as <-. rewrite bind_ret.
      unfold ret. cbn. now rewrite <- !app_assoc. }
  rewrite (bind_Ok _ _ _ _ _ Hl).
  cbv zeta. rewrite append_data_padded, bind_lift.
  rewrite append_data_padded, bind_lift.
  rewrite append_data_padded, bind_lift.
  rewrite append_data_padded, bind_lift.
  rewrite !bind_print, bind_lift.
  change (pack_metadata _) with (pack_metadata m) at 1.
  set (p1 := EvPrint (size_line "Rootfs" _)).
  set (p2 := EvPrint (size_line "Kernel" _)).
  set (p3 := EvPrint (size_line "Uboot" _)).
  set (p4 := EvPrint (size_line "Ramdisk" _)).
  change (progress_lines m) with [p1; p2; p3; p4] in t'.
  destruct (pack_metadata m) as [blk|e].
  - set (img := (_ ++ metadata_footer_data st)).
    change ((buf_checksummed st k r d ++ blk) ++ metadata_footer_data st)
      with img.
    unfold write_binary. cbn [locked logs files trace output].
    destruct (decide (o ∈ locked w)); unfold t', logs, log;
      cbn [locked files trace]; rewrite <- !app_assoc; reflexivity.
  - unfold t', logs. rewrite <- !app_assoc. reflexivity.
Qed.


Lemma load_statics_cases (w : World) (t0 : list event) :
  (exists st, statics_in (files w) st /\
     load_statics (logs t0 w) =
       (Ok st, logs (t0 ++ map EvOpenRead static_paths) w))
  \/ (exists p t, In p static_paths /\ files w !! p = None /\ quiet t /\
        load_statics (logs t0 w) = (Raise (OSError p), logs (t0 ++ t) w)).
Proof.
  destruct (files w !! "static/header.bin") as [h|] eqn:Hh.
  2:{ right. exists "static/header.bin", [EvOpenRead "static/header.bin"].
      split; [simpl; tauto|]. split; [exact Hh|].
      split; [repeat constructor|].
      apply bind_Raise, load_binary_None, Hh. }
  destruct (files w !! "static/uboot.bin") as [u|] eqn:Hu.
  2:{ right. exists "static/uboot.bin",
        (map EvOpenRead (take 2 static_paths)).
      split; [simpl; tauto|]. split; [exact Hu|].
      split; [repeat constructor|]. unfold load_statics.
      rewrite (bind_Ok _ _ _ _ _ (load_binary_Some _ _ _ _ Hh)).
      rewrite (bind_Raise _ _ _ _ _ (load_binary_None _ _ _ Hu)).
      now rewrite <- !app_assoc. }
  destruct (files w !! "static/metadata_header.bin") as [mh|] eqn:Hmh.
  2:{ right. exists "static/metadata_header.bin",
        (map EvOpenRead (take 3 static_paths)).
      split; [simpl; tauto|]. split; [exact Hmh|].
      split; [repeat constructor|]. unfold load_statics.
      rewrite (bind_Ok _ _ _ _ _ (load_binary_Some _ _ _ _ Hh)).
      rewrite (bind_Ok _ _ _ _ _ (load_binary_Some _ _ _ _ Hu)).
      rewrite (bind_Raise _ _ _ _ _ (load_binary_None _ _ _ Hmh)).
      now rewrite <- !app_assoc. }
  destruct (files w !! "static/metadata_footer.bin") as [mf|] eqn:Hmf.
  2:{ right. exists "static/metadata_footer.bin",
        (map EvOpenRead static_paths).
      split; [simpl; tauto|]. split; [exact Hmf|].
      split; [repeat constructor|]. unfold load_statics.
      rewrite (bind_Ok _ _ _ _ _ (load_binary_Some _ _ _ _ Hh)).
      rewrite (bind_Ok _ _ _ _ _ (load_binary_Some _ _ _ _ Hu)).
      rewrite (bind_Ok _ _ _ _ _ (load_binary_Some _ _ _ _ Hmh)).
      rewrite (bind_Raise _ _ _ _ _ (load_binary_None _ _ _ Hmf)).
      now rewrite <- !app_assoc. }
  left. exists (mkStatics h u mh mf). split; [now repeat split|].
  now apply load_statics_Some.
Qed.

Lemma main_usage (st : Statics) (argv : Cmdline) (w : World) (t0 : list event) :
  cl_output argv = None \/ cl_kernel argv = None \/ cl_rootfs argv = None ->
  main st argv (logs t0 w) =
    (Raise (SystemExit 2), logs (t0 ++ [EvUsageError]) w).
Proof.
  intros H. unfold main.
  apply bind_Raise. unfold parse_args.
  destruct (cl_output argv), (cl_kernel argv), (cl_rootfs argv);
    try (unfold log; now rewrite <- logs_logs).
  destruct H as [H|[H|H]]; discriminate H.
Qed.

Lemma main_cases (st : Statics) (argv : Cmdline) (w : World) (t0 : list event) :
  (exists o k r d, user_in argv (files w) o k r d)
  \/ (exists e t, quiet t /\
        (e = SystemExit 2 \/
         exists p, e = OSError p /\ In p (user_paths argv) /\
                   files w !! p = None) /\
        main st argv (logs t0 w) = (Raise e, logs (t0 ++ t) w)).
Proof.
  destruct (cl_output argv) as [o|] eqn:Ho.
  2:{ right. exists (SystemExit 2), [EvUsageError].
      split; [repeat constructor|]. split; [now left|].
      apply main_usage. now left. }
  destruct (cl_kernel argv) as [kp|] eqn:Hk.
  2:{ right. exists (SystemExit 2), [EvUsageError].
      split; [repeat constructor|]. split; [now left|].
      apply main_usage. right. now left. }
  destruct (cl_rootfs argv) as [rp|] eqn:Hr.
  2:{ right. exists (SystemExit 2), [EvUsageError].
      split; [repeat constructor|]. split; [now left|].
      apply main_usage. right. now right. }
  assert (Hp : parse_args argv (logs t0 w) =
               (Ok (mkNamespace o kp rp (cl_ramdisk argv)), logs t0 w)).
  { unfold parse_args. now rewrite Ho, Hk, Hr. }
  destruct (files w !! kp) as [k|] eqn:Hkd.
  2:{ right. exists (OSError kp), [EvOpenRead kp].
      split; [repeat constructor|]. split.
      { right. exists kp. unfold user_paths. rewrite Hk. simpl. tauto. }
      unfold main. rewrite (bind_Ok _ _ _ _ _ Hp).
      apply bind_Raise. unfold load_user_data. cbn [kernel].
      apply bind_Raise, load_binary_None, Hkd. }
  destruct (files w !! rp) as [r|] eqn:Hrd.
  2:{ right. exists (OSError rp), [EvOpenRead kp; EvOpenRead rp].
      split; [repeat constructor|]. split.
      { right. exists rp. unfold user_paths. rewrite Hk, Hr. simpl. tauto. }
      unfold main. rewrite (bind_Ok _ _ _ _ _ Hp).
      apply bind_Raise. unfold load_user_data. cbn [kernel rootfs].
      rewrite (bind_Ok _ _ _ _ _ (load_binary_Some _ _ _ _ Hkd)).
      rewrite (bind_Raise _ _ _ _ _ (load_binary_None _ _ _ Hrd)).
      now rewrite <- !app_assoc. }
  destruct (secondary argv (files w) k) as [d|] eqn:Hd.
  { left. exists o, k, r, d. unfold user_in. rewrite Hd. eauto 10. }
  right. unfold secondary in Hd.
  destruct (truthy (cl_ramdisk argv)) as [p|] eqn:Ht; [|discriminate Hd].
  exists (OSError p), [EvOpenRead kp; EvOpenRead rp; EvOpenRead p].
  split; [repeat constructor|]. split.
  { right. exists p. unfold user_paths. rewrite Hk, Hr, Ht. simpl. tauto. }
  unfold main. rewrite (bind_Ok _ _ _ _ _ Hp).
  apply bind_Raise. unfold load_user_data. cbn [kernel rootfs ramdisk].
  rewrite (bind_Ok _ _ _ _ _ (load_binary_Some _ _ _ _ Hkd)).
  rewrite (bind_Ok _ _ _ _ _ (load_binary_Some _ _ _ _ Hrd)).
  rewrite Ht.
  rewrite (bind_Raise _ _ _ _ _ (load_binary_None _ _ _ Hd)).
  now rewrite <- !app_assoc.
Qed.

Lemma script_run (argv : Cmdline) (w : World) (o : string) (st : Statics)
      (k r d : bytes) :
  statics_in (files w) st -> user_in argv (files w) o k r d ->
  let m := metadata_of st k r d in
  let t := map EvOpenRead (input_paths argv) ++ progress_lines m in
  script argv w =
    match pack_metadata m with
    | Ok blk =>
        if decide (o ∈ locked w)
        then (Raise (OSError o), logs (t ++ [EvOpenWrite o]) w)
        else (Ok tt,
              mkWorld (<[o := (buf_checksummed st k r d ++ blk)
                               ++ metadata_footer_data st]> (files w))
                      (locked w) (trace w ++ t ++ [EvOpenWrite o]))
    | Raise e => (Raise e, logs t w)
    end.
Proof.
  intros (Hh & Hu & Hmh & Hmf) (Ho & (kp & Hk & Hkd) & (rp & Hr & Hrd) & Hd).
  intros m t. unfold script.
  rewrite <- (logs_nil w) at 1.
  destruct st as [h u mh mf]. cbn [header_data uboot_data metadata_header_data
    metadata_footer_data] in Hh, Hu, Hmh, Hmf.
  rewrite (bind_Ok _ _ _ _ _ (load_statics_Some w [] _ _ _ _ Hh Hu Hmh Hmf)).
  rewrite (main_run _ argv w _ o kp rp k r d Ho Hk Hr Hkd Hrd Hd).
  unfold t, input_paths. cbn [app]. rewrite map_app, <- !app_assoc.
  reflexivity.
Qed.

Lemma script_cases (argv : Cmdline) (w : World) :
  (exists o st k r d,
      statics_in (files w) st /\ user_in argv (files w) o k r d)
  \/ (exists e t, quiet t /\
        (e = SystemExit 2 \/
         exists p, e = OSError p /\ In p (input_paths argv) /\
                   files w !! p = None) /\
        script argv w = (Raise e, logs t w)).
Proof.
  assert (E : script argv w = bind load_statics (fun st => main st argv)
                                   (logs [] w)) by now rewrite logs_nil.
  destruct (load_statics_cases w []) as [(st & Hst & Hl)|(p & t & Hp & Hn & Hq & Hl)].
  - destruct (main_cases st argv w ([] ++ map EvOpenRead static_paths))
      as [(o & k & r & d & Hu)|(e & t & Hq & He & Hm)].
    + left. now exists o, st, k, r, d.
    + right. exists e, (map EvOpenRead static_paths ++ t).
      split; [apply Forall_app; split; [repeat constructor|exact Hq]|].
      split.
      { destruct He as [He|(p & He & Hp & Hn)]; [now left|right].
        exists p. split; [exact He|]. split; [|exact Hn].
        unfold input_paths. apply in_or_app. now right. }
      rewrite E, (bind_Ok _ _ _ _ _ Hl). exact Hm.
  - right. exists (OSError p), t. split; [exact Hq|]. split.
    { right. exists p. split; [reflexivity|]. split; [|exact Hn].
      unfold input_paths. apply in_or_app. now left. }
    rewrite E, (bind_Raise _ _ _ _ _ Hl). reflexivity.
Qed.

Lemma inputs_present (argv : Cmdline) (fs : gmap string bytes) (o : string)
      (st : Statics) (k r d : bytes) (p : string) :
  statics_in fs st -> user_in argv fs o k r d ->
  In p (input_paths argv) -> is_Some (fs !! p).
Proof.
  intros (Hh & Hu & Hmh & Hmf) (Ho & (kp & Hk & Hkd) & (rp & Hr & Hrd) & Hd).
  unfold input_paths, user_paths, secondary in *. rewrite Hk, Hr.
  intros Hp. apply in_app_or in Hp. destruct Hp as [Hp|Hp].
  - simpl in Hp. destruct Hp as [<-|[<-|[<-|[<-|[]]]]]; eauto.
  - destruct (truthy (cl_ramdisk argv)) as [q|]; simpl in Hp.
    + destruct Hp as [<-|[<-|[<-|[]]]]; eauto.
    + destruct Hp as [<-|[<-|[]]]; eauto.
Qed.

(** What a successful run looks like: the inputs were all readable, the
    metadata fitted its fields, and the only change to the file system is
    the output file. *)
Lemma script_success (argv : Cmdline) (w w' : World) :
  script argv w = (Ok tt, w') ->
  exists o st k r d blk,
    statics_in (files w) st /\ user_in argv (files w) o k r d /\
    pack_metadata (metadata_of st k r d) = Ok blk /\
    w' = mkWorld (<[o := (buf_checksummed st k r d ++ blk)
                          ++ metadata_footer_data st]> (files w))
                 (locked w)
                 (trace w ++ (map EvOpenRead (input_paths argv)
                              ++ progress_lines (metadata_of st k r d))
                          ++ [EvOpenWrite o]).
Proof.
  intros H.
  destruct (script_cases argv w)
    as [(o & st & k & r & d & Hst & Hu)|(e & t & _ & _ & Hf)].
  2:{ rewrite Hf in H. discriminate H. }
  rewrite (script_run argv w o st k r d Hst Hu) in H.
  destruct (pack_metadata (metadata_of st k r d)) as [blk|e] eqn:Hp;
    [|discriminate H].
  destruct (decide (o ∈ locked w)); [discriminate H|].
  injection H as <-. now exists o, st, k, r, d, blk.
Qed.


(** Conversely the run does succeed whenever the inputs are readable, the
    metadata fits and the output can be opened for writing. *)
Lemma script_succeeds (argv : Cmdline) (w : World) (o : string) (st : Statics)
      (k r d : bytes) :
  statics_in (files w) st -> user_in argv (files w) o k r d ->
  fits (metadata_of st k r d) -> o ∉ locked w ->
  exists w', script argv w = (Ok tt, w').
Proof.
  intros Hst Hu Hf Hl. rewrite (script_run argv w o st k r d Hst Hu).
  rewrite (pack_metadata_fits _ Hf).
  destruct (decide (o ∈ locked w)); [contradiction|]. eauto.
Qed.

(** * The serializer *)

(** C1, as stated, fails: the block [pack_metadata] produces has eleven
    words, 44 bytes and not 32, and a record with a field outside the
    unsigned 32-bit range is not serialized at all. *)
Lemma pack_metadata_not_32_bytes :
  (exists b, pack_metadata (mkMetadata 1 2 3 4 5) = Ok b /\
             length b = 44%nat /\ length b <> 32%nat) /\
  pack_metadata (mkMetadata (2 ^ 32) 0 0 0 0) = Raise OverflowError.
Proof.
  split; [|reflexivity].
  eexists. split; [reflexivity|]. split; [reflexivity|discriminate].
Qed.

(** C1, amended: for every metadata record whose checksum and sizes fit an
    unsigned 32-bit field, [pack_metadata] returns the fields in the
    documented order (checksum, primary kernel size, squashfs size, uboot
    size, three zero words, 7, backup kernel size + 40, 2, 0x570), each as
    four little-endian bytes with nothing in between, 44 bytes in all. *)
Theorem pack_metadata_layout (m : Metadata) :
  fits m ->
  exists b,
    pack_metadata m = Ok b /\
    b = le_digits 4 (crc32_checksum m)
        ++ le_digits 4 (primary_kernel_size m)
        ++ le_digits 4 (squashfs_size m)
        ++ le_digits 4 (uboot_size m)
        ++ [x00; x00; x00; x00] ++ [x00; x00; x00; x00]
        ++ [x00; x00; x00; x00]
        ++ le_digits 4 0x00000007
        ++ le_digits 4 (backup_kernel_size m + 40)
        ++ le_digits 4 0x00000002
        ++ le_digits 4 0x00000570 /\
    length b = 44%nat.
Proof.
  intros Hf. eexists. split; [apply pack_metadata_fits, Hf|].
  split; reflexivity.
Qed.

Lemma pack_metadata_layout_witness :
  exists b,
    pack_metadata (mkMetadata 0x37B5CCBB 32 32 16 32) = Ok b /\
    b = le_digits 4 0x37B5CCBB ++ le_digits 4 32 ++ le_digits 4 32
        ++ le_digits 4 16
        ++ [x00; x00; x00; x00] ++ [x00; x00; x00; x00]
        ++ [x00; x00; x00; x00]
        ++ le_digits 4 0x00000007 ++ le_digits 4 (32 + 40)
        ++ le_digits 4 0x00000002 ++ le_digits 4 0x00000570 /\
    length b = 44%nat.
Proof.
  apply (pack_metadata_layout (mkMetadata 0x37B5CCBB 32 32 16 32)).
  unfold fits; simpl; lia.
Defined.

(** C10, as stated, fails: a negative [backup_kernel_size] of at least
    [-40] is serialized without error, because only the sum
    [backup_kernel_size + 40] is converted. *)
Lemma pack_metadata_negative_backup :
  backup_kernel_size (mkMetadata 0 0 0 0 (-1)) < 0 /\
  pack_metadata (mkMetadata 0 0 0 0 (-1)) =
    Ok (le_digits 4 0 ++ le_digits 4 0 ++ le_digits 4 0 ++ le_digits 4 0
        ++ List.repeat x00 12 ++ le_digits 4 7 ++ le_digits 4 39
        ++ le_digits 4 2 ++ le_digits 4 0x570).
Proof. split; [simpl; lia|reflexivity]. Qed.

(** C10, amended: [pack_metadata] raises [OverflowError], producing no
    bytes, when the checksum or one of the three sizes is negative or at
    least [2^32], or when [backup_kernel_size + 40] is negative or at least
    [2^32]; when all five values fit, it succeeds and every word of the
    block occupies four bytes that read back, little-endian, as its
    value. *)
Theorem pack_metadata_total_on_fitting (m : Metadata) :
  (crc32_checksum m < 0 \/ 2 ^ 32 <= crc32_checksum m \/
   primary_kernel_size m < 0 \/ 2 ^ 32 <= primary_kernel_size m \/
   squashfs_size m < 0 \/ 2 ^ 32 <= squashfs_size m \/
   uboot_size m < 0 \/ 2 ^ 32 <= uboot_size m \/
   backup_kernel_size m + 40 < 0 \/ 2 ^ 32 <= backup_kernel_size m + 40 ->
   pack_metadata m = Raise OverflowError) /\
  (0 <= crc32_checksum m < 2 ^ 32 ->
   0 <= primary_kernel_size m < 2 ^ 32 ->
   0 <= squashfs_size m < 2 ^ 32 ->
   0 <= uboot_size m < 2 ^ 32 ->
   -40 <= backup_kernel_size m <= 2 ^ 32 - 41 ->
   exists b,
     pack_metadata m = Ok b /\
     length b = (4 * length (metadata_words m))%nat /\
     forall (i : nat) (word : Z),
       metadata_words m !! i = Some word ->
       length (take 4 (drop (4 * i) b)) = 4%nat /\
       from_bytes (take 4 (drop (4 * i) b)) = word).
Proof.
  split.
  - intros H. apply pack_metadata_overflow. unfold fits. lia.
  - intros Hc Hk Hs Hu Hb.
    assert (Hf : fits m) by (unfold fits; lia).
    eexists. split; [apply pack_metadata_fits, Hf|].
    split; [reflexivity|]. intros i word Hi. split.
    + rewrite length_take, length_drop, length_metadata_block.
      apply lookup_lt_Some in Hi. simpl in Hi. lia.
    + now apply metadata_block_word.
Qed.

Lemma pack_metadata_total_on_fitting_witness :
  pack_metadata (mkMetadata 0 0 0 0 (2 ^ 32 - 40)) = Raise OverflowError /\
  exists b,
    pack_metadata (mkMetadata 0x37B5CCBB 32 32 16 32) = Ok b /\
    length b =
      (4 * length (metadata_words (mkMetadata 0x37B5CCBB 32 32 16 32)))%nat /\
    forall (i : nat) (word : Z),
      metadata_words (mkMetadata 0x37B5CCBB 32 32 16 32) !! i = Some word ->
      length (take 4 (drop (4 * i) b)) = 4%nat /\
      from_bytes (take 4 (drop (4 * i) b)) = word.
Proof.
  split.
  - apply (proj1 (pack_metadata_total_on_fitting
                    (mkMetadata 0 0 0 0 (2 ^ 32 - 40)))).
    simpl. lia.
  - apply (proj2 (pack_metadata_total_on_fitting
                    (mkMetadata 0x37B5CCBB 32 32 16 32))); simpl; lia.
Defined.

(** * The section appender *)

(** C4: with alignment 16, [append_data] appends the section followed by
    exactly [P = 16 - (len O + len S) mod 16] zero bytes and returns the
    new buffer with the padded length [len S + P]; when the running total
    is already aligned, [P] is a full block of 16. *)
Theorem append_data_16 (O S : bytes) :
  let P := 16 - (len O + len S) mod 16 in
  append_data O S 16 =
    Ok (O ++ S ++ List.repeat x00 (Z.to_nat P), len S + P) /\
  ((len O + len S) mod 16 = 0 -> P = 16).
Proof.
  intros P. split.
  - rewrite append_data_padded, len_padded. unfold padded.
    now rewrite bytes_mul_zero.
  - intros H. unfold P. rewrite H. reflexivity.
Qed.

Lemma append_data_16_witness :
  let O := List.repeat x00 32 in
  let S := List.repeat xbb 16 in
  append_data O S 16 = Ok (O ++ S ++ List.repeat x00 16, 32) /\
  16 - (len O + len S) mod 16 = 16.
Proof.
  intros O S. destruct (append_data_16 O S) as [H1 H2].
  split; [exact H1|]. apply H2. reflexivity.
Defined.

(** C6, as stated, fails: the padding aligns the running total, so on a
    buffer whose own length is not a multiple of 16 the padded length that
    is returned is not one either. *)
Lemma append_data_unaligned_buffer :
  append_data [x01] [] 16 = Ok ([x01] ++ List.repeat x00 15, 15) /\
  15 mod 16 <> 0.
Proof. split; [reflexivity|discriminate]. Qed.

(** C6, amended: for every buffer and section the appender adds between 1
    and 16 zero bytes and the resulting buffer's length is a multiple of
    16; the padded length it returns is a multiple of 16 whenever the
    buffer's length before the call was. *)
Theorem append_data_alignment (O S : bytes) :
  exists (buf : bytes) (n : Z),
    append_data O S 16 = Ok (buf, n) /\
    1 <= n - len S <= 16 /\
    buf = O ++ S ++ List.repeat x00 (Z.to_nat (n - len S)) /\
    len buf mod 16 = 0 /\
    (len O mod 16 = 0 -> n mod 16 = 0).
Proof.
  exists (O ++ padded O S), (len (padded O S)).
  split; [apply append_data_padded|].
  pose proof (padding_range O S) as Hp.
  rewrite len_padded.
  replace (len S + padding O S - len S) with (padding O S) by lia.
  split; [exact Hp|]. split.
  { unfold padded. now rewrite bytes_mul_zero. }
  split; [apply len_padded_total|].
  intros Ho. rewrite <- len_padded. now apply len_padded_aligned.
Qed.

Lemma append_data_alignment_witness :
  exists (buf : bytes) (n : Z),
    append_data (List.repeat x00 32) (List.repeat xaa 17) 16 = Ok (buf, n) /\
    1 <= n - 17 <= 16 /\
    buf = List.repeat x00 32 ++ List.repeat xaa 17
          ++ List.repeat x00 (Z.to_nat (n - 17)) /\
    len buf mod 16 = 0 /\
    n mod 16 = 0.
Proof.
  destruct (append_data_alignment (List.repeat x00 32) (List.repeat xaa 17))
    as (buf & n & H1 & H2 & H3 & H4 & H5).
  exists buf, n. repeat split; try assumption; try apply H2.
  apply H5. reflexivity.
Defined.

(** * The assembled image *)

Lemma padded_zeros (original data : bytes) :
  padded original data =
    data ++ List.repeat x00 (length (padded original data) - length data).
Proof.
  unfold padded. rewrite bytes_mul_zero, length_app, repeat_length.
  f_equal. f_equal. lia.
Qed.

Lemma buf_checksummed_sections (st : Statics) (k r d : bytes) :
  buf_checksummed st k r d =
    header_data st ++ rootfs_section st r ++ kernel_section st k r
    ++ uboot_section st k r ++ ramdisk_section st k r d
    ++ metadata_header_data st.
Proof.
  unfold buf_checksummed, buf_ramdisk, buf_uboot, buf_kernel, buf_rootfs.
  now rewrite <- !app_assoc.
Qed.

Lemma packed_fields (m : Metadata) (blk : bytes) :
  pack_metadata m = Ok blk ->
  length blk = 44%nat /\
  from_bytes (take 4 blk) = crc32_checksum m /\
  from_bytes (take 4 (drop 8 blk)) = squashfs_size m.
Proof.
  intros H. apply pack_metadata_inv in H. destruct H as [Hf ->].
  split; [reflexivity|]. split.
  - exact (metadata_block_word m 0 _ Hf eq_refl).
  - exact (metadata_block_word m 2 _ Hf eq_refl).
Qed.

Lemma secondary_default (argv : Cmdline) (fs : gmap string bytes)
      (k d : bytes) :
  cl_ramdisk argv = None -> secondary argv fs k = Some d -> d = k.
Proof. unfold secondary. intros ->. simpl. now intros [= <-]. Qed.

(** C5: on a successful run the output file holds, in this order, the
    header blob, the padded rootfs, kernel, uboot and secondary-kernel
    sections, the metadata-header template, the metadata block and the
    footer template, each section being its raw bytes followed by zero
    bytes; without [--ramdisk] the secondary kernel's raw bytes are the
    kernel's.  No other file is changed. *)
Theorem output_image_layout (argv : Cmdline) (w w' : World) :
  script argv w = (Ok tt, w') ->
  exists (o : string) (st : Statics) (k r d blk : bytes),
    statics_in (files w) st /\ user_in argv (files w) o k r d /\
    (cl_ramdisk argv = None -> d = k) /\
    pack_metadata (metadata_of st k r d) = Ok blk /\
    files w' =
      <[o := header_data st
             ++ rootfs_section st r ++ kernel_section st k r
             ++ uboot_section st k r ++ ramdisk_section st k r d
             ++ metadata_header_data st ++ blk
             ++ metadata_footer_data st]> (files w) /\
    rootfs_section st r =
      r ++ List.repeat x00 (length (rootfs_section st r) - length r) /\
    kernel_section st k r =
      k ++ List.repeat x00 (length (kernel_section st k r) - length k) /\
    uboot_section st k r =
      uboot_data st
      ++ List.repeat x00 (length (uboot_section st k r)
                          - length (uboot_data st)) /\
    ramdisk_section st k r d =
      d ++ List.repeat x00 (length (ramdisk_section st k r d) - length d).
Proof.
  intros H. apply script_success in H.
  destruct H as (o & st & k & r & d & blk & Hst & Hu & Hp & ->).
  exists o, st, k, r, d, blk.
  split; [exact Hst|]. split; [exact Hu|]. split.
  { intros Hn. destruct Hu as (_ & _ & _ & Hd).
    exact (secondary_default argv _ k d Hn Hd). }
  split; [exact Hp|]. split.
  { cbn [files]. rewrite buf_checksummed_sections, <- !app_assoc.
    reflexivity. }
  repeat split; apply padded_zeros.
Qed.

Lemma output_image_layout_witness :
  exists (o : string) (st : Statics) (k r d blk : bytes),
    statics_in (files demo_world) st /\
    user_in demo_argv (files demo_world) o k r d /\
    (cl_ramdisk demo_argv = None -> d = k) /\
    pack_metadata (metadata_of st k r d) = Ok blk /\
    files (snd (script demo_argv demo_world)) =
      <[o := header_data st
             ++ rootfs_section st r ++ kernel_section st k r
             ++ uboot_section st k r ++ ramdisk_section st k r d
             ++ metadata_header_data st ++ blk
             ++ metadata_footer_data st]> (files demo_world) /\
    rootfs_section st r =
      r ++ List.repeat x00 (length (rootfs_section st r) - length r) /\
    kernel_section st k r =
      k ++ List.repeat x00 (length (kernel_section st k r) - length k) /\
    uboot_section st k r =
      uboot_data st
      ++ List.repeat x00 (length (uboot_section st k r)
                          - length (uboot_data st)) /\
    ramdisk_section st k r d =
      d ++ List.repeat x00 (length (ramdisk_section st k r d) - length d).
Proof.
  apply (output_image_layout demo_argv demo_world
           (snd (script demo_argv demo_world))).
  vm_compute. reflexivity.
Defined.

(** C7: when the header blob is exactly 32 bytes, the squashfs size word of
    the metadata block in the written image equals the padded length of
    the rootfs section, and at that offset from the start of the payload
    (the image after its first 32 bytes) the kernel section begins. *)
Theorem squashfs_size_is_kernel_offset (argv : Cmdline) (w w' : World)
        (h : bytes) :
  script argv w = (Ok tt, w') ->
  files w !! "static/header.bin" = Some h ->
  length h = 32%nat ->
  exists (o : string) (st : Statics) (k r d blk img : bytes),
    statics_in (files w) st /\ user_in argv (files w) o k r d /\
    files w' !! o = Some img /\
    img = (buf_checksummed st k r d ++ blk) ++ metadata_footer_data st /\
    length blk = 44%nat /\
    from_bytes (take 4 (drop 8 blk)) = len (rootfs_section st r) /\
    take (length (rootfs_section st r)) (drop 32 img) = rootfs_section st r /\
    exists rest : bytes,
      drop (length (rootfs_section st r)) (drop 32 img) =
        kernel_section st k r ++ rest.
Proof.
  intros H Hh Hlen. apply script_success in H.
  destruct H as (o & st & k & r & d & blk & Hst & Hu & Hp & ->).
  exists o, st, k, r, d, blk. eexists.
  split; [exact Hst|]. split; [exact Hu|].
  split; [cbn [files]; apply lookup_insert_eq|].
  split; [reflexivity|].
  destruct (packed_fields _ _ Hp) as (Hl & _ & Hs).
  split; [exact Hl|]. split; [exact Hs|].
  assert (Hh' : header_data st = h).
  { destruct Hst as (Hst & _). rewrite Hh in Hst. now injection Hst. }
  rewrite buf_checksummed_sections, <- !app_assoc.
  rewrite (drop_app_length' (header_data st)) by (rewrite Hh'; symmetry; exact Hlen).
  split; [apply take_app_length|].
  eexists. apply drop_app_length.
Qed.

Lemma squashfs_size_is_kernel_offset_witness :
  exists (o : string) (st : Statics) (k r d blk img : bytes),
    statics_in (files demo_world) st /\
    user_in demo_argv (files demo_world) o k r d /\
    files (snd (script demo_argv demo_world)) !! o = Some img /\
    img = (buf_checksummed st k r d ++ blk) ++ metadata_footer_data st /\
    length blk = 44%nat /\
    from_bytes (take 4 (drop 8 blk)) = len (rootfs_section st r) /\
    take (length (rootfs_section st r)) (drop 32 img) = rootfs_section st r /\
    exists rest : bytes,
      drop (length (rootfs_section st r)) (drop 32 img) =
        kernel_section st k r ++ rest.
Proof.
  apply (squashfs_size_is_kernel_offset demo_argv demo_world
           (snd (script demo_argv demo_world)) (List.repeat x00 32)).
  - vm_compute. reflexivity.
  - reflexivity.
  - reflexivity.
Defined.

(** * The checksum *)

(** C3: the checksum word of the metadata block is the CRC-32 of the
    accumulated buffer from offset 32 to its end, taken right after the
    metadata-header template has been appended.  That buffer is the header,
    the four padded sections and the template; the metadata block and the
    footer come after it in the image, and with a 32-byte header the
    checksummed range is exactly the four sections and the template. *)
Theorem checksum_of_accumulated_buffer (argv : Cmdline) (w w' : World) :
  script argv w = (Ok tt, w') ->
  exists (o : string) (st : Statics) (k r d blk : bytes),
    statics_in (files w) st /\ user_in argv (files w) o k r d /\
    pack_metadata (metadata_of st k r d) = Ok blk /\
    files w' !! o =
      Some ((buf_checksummed st k r d ++ blk) ++ metadata_footer_data st) /\
    buf_checksummed st k r d =
      ((((header_data st ++ rootfs_section st r) ++ kernel_section st k r)
        ++ uboot_section st k r) ++ ramdisk_section st k r d)
      ++ metadata_header_data st /\
    from_bytes (take 4 blk) = crc32 (drop 32 (buf_checksummed st k r d)) /\
    0 <= crc32 (drop 32 (buf_checksummed st k r d)) < 2 ^ 32 /\
    (length (header_data st) = 32%nat ->
     drop 32 (buf_checksummed st k r d) =
       rootfs_section st r ++ kernel_section st k r ++ uboot_section st k r
       ++ ramdisk_section st k r d ++ metadata_header_data st).
Proof.
  intros H. apply script_success in H.
  destruct H as (o & st & k & r & d & blk & Hst & Hu & Hp & ->).
  exists o, st, k, r, d, blk.
  split; [exact Hst|]. split; [exact Hu|]. split; [exact Hp|].
  split; [cbn [files]; apply lookup_insert_eq|].
  split; [reflexivity|].
  destruct (packed_fields _ _ Hp) as (_ & Hc & _).
  split; [exact Hc|]. split; [apply crc32_range|].
  intros Hlen. rewrite buf_checksummed_sections.
  now apply drop_app_length'.
Qed.

Lemma checksum_of_accumulated_buffer_witness :
  exists (o : string) (st : Statics) (k r d blk : bytes),
    statics_in (files demo_world) st /\
    user_in demo_argv (files demo_world) o k r d /\
    pack_metadata (metadata_of st k r d) = Ok blk /\
    files (snd (script demo_argv demo_world)) !! o =
      Some ((buf_checksummed st k r d ++ blk) ++ metadata_footer_data st) /\
    buf_checksummed st k r d =
      ((((header_data st ++ rootfs_section st r) ++ kernel_section st k r)
        ++ uboot_section st k r) ++ ramdisk_section st k r d)
      ++ metadata_header_data st /\
    from_bytes (take 4 blk) = crc32 (drop 32 (buf_checksummed st k r d)) /\
    0 <= crc32 (drop 32 (buf_checksummed st k r d)) < 2 ^ 32 /\
    (length (header_data st) = 32%nat ->
     drop 32 (buf_checksummed st k r d) =
       rootfs_section st r ++ kernel_section st k r ++ uboot_section st k r
       ++ ramdisk_section st k r d ++ metadata_header_data st).
Proof.
  apply (checksum_of_accumulated_buffer demo_argv demo_world
           (snd (script demo_argv demo_world))).
  vm_compute. reflexivity.
Defined.

(** C2, as stated, fails: in the small concrete run the checksum word of
    the written image (44 bytes before the one-byte footer) is the CRC-32
    of the image from offset 32 up to the metadata block, which includes
    the two-byte metadata-header template, and differs from the CRC-32 of
    the image from offset 32 to the end of the secondary-kernel padding. *)
Lemma checksum_includes_metadata_header :
  exists img : bytes,
    files (snd (script demo_argv demo_world)) !! "out.bin" = Some img /\
    length img = (32 + (32 + 32 + 16 + 32) + 2 + 44 + 1)%nat /\
    take (32 + 32 + 16 + 32) (drop 32 img) =
      rootfs_section demo_statics demo_rootfs
      ++ kernel_section demo_statics demo_kernel demo_rootfs
      ++ uboot_section demo_statics demo_kernel demo_rootfs
      ++ ramdisk_section demo_statics demo_kernel demo_rootfs demo_kernel /\
    from_bytes (take 4 (drop (32 + 112 + 2) img)) = 0xAC24E586 /\
    crc32 (take (32 + 32 + 16 + 32) (drop 32 img)) = 0xAB05BD60 /\
    crc32 (take (32 + 32 + 16 + 32 + 2) (drop 32 img)) = 0xAC24E586 /\
    from_bytes (take 4 (drop (32 + 112 + 2) img)) <>
      crc32 (take (32 + 32 + 16 + 32) (drop 32 img)).
Proof.
  eexists. split; [vm_compute; reflexivity|].
  repeat split; try (vm_compute; reflexivity).
  vm_compute. discriminate.
Qed.

(** C2, amended: the checksum word of the metadata block in the written
    image equals the CRC-32 of the image bytes from offset 32 up to the
    start of the metadata block, which lies 44 bytes before the footer
    template; that range ends with the metadata-header template, and with
    a 32-byte header it is the four padded sections followed by the
    template.  The first 32 bytes, the metadata block and the footer are
    outside it. *)
Theorem checksum_field_of_image (argv : Cmdline) (w w' : World) :
  script argv w = (Ok tt, w') ->
  exists (o : string) (st : Statics) (k r d img : bytes),
    statics_in (files w) st /\ user_in argv (files w) o k r d /\
    files w' !! o = Some img /\
    let start := (length img - length (metadata_footer_data st) - 44)%nat in
    length img =
      (start + 44 + length (metadata_footer_data st))%nat /\
    drop (start + 44) img = metadata_footer_data st /\
    from_bytes (take 4 (drop start img)) = crc32 (drop 32 (take start img)) /\
    take start img =
      header_data st ++ rootfs_section st r ++ kernel_section st k r
      ++ uboot_section st k r ++ ramdisk_section st k r d
      ++ metadata_header_data st /\
    (length (header_data st) = 32%nat ->
     drop 32 (take start img) =
       rootfs_section st r ++ kernel_section st k r ++ uboot_section st k r
       ++ ramdisk_section st k r d ++ metadata_header_data st).
Proof.
  intros H. apply script_success in H.
  destruct H as (o & st & k & r & d & blk & Hst & Hu & Hp & ->).
  exists o, st, k, r, d. eexists.
  split; [exact Hst|]. split; [exact Hu|].
  split; [cbn [files]; apply lookup_insert_eq|].
  destruct (packed_fields _ _ Hp) as (Hl & Hc & _).
  set (buf := buf_checksummed st k r d).
  set (mf := metadata_footer_data st).
  assert (Hs : (length ((buf ++ blk) ++ mf) - length mf - 44)%nat
               = length buf).
  { rewrite !length_app, Hl. lia. }
  cbv zeta. rewrite Hs.
  split; [rewrite !length_app, Hl; lia|].
  split.
  { apply drop_app_length'. rewrite length_app, Hl. lia. }
  rewrite <- (app_assoc buf blk mf).
  rewrite take_app_length, drop_app_length.
  split.
  { rewrite take_app_le by lia. exact Hc. }
  split; [apply buf_checksummed_sections|].
  intros Hlen. unfold buf. rewrite buf_checksummed_sections.
  now apply drop_app_length'.
Qed.

Lemma checksum_field_of_image_witness :
  exists (o : string) (st : Statics) (k r d img : bytes),
    statics_in (files demo_world) st /\
    user_in demo_argv (files demo_world) o k r d /\
    files (snd (script demo_argv demo_world)) !! o = Some img /\
    let start := (length img - length (metadata_footer_data st) - 44)%nat in
    length img =
      (start + 44 + length (metadata_footer_data st))%nat /\
    drop (start + 44) img = metadata_footer_data st /\
    from_bytes (take 4 (drop start img)) = crc32 (drop 32 (take start img)) /\
    take start img =
      header_data st ++ rootfs_section st r ++ kernel_section st k r
      ++ uboot_section st k r ++ ramdisk_section st k r d
      ++ metadata_header_data st /\
    (length (header_data st) = 32%nat ->
     drop 32 (take start img) =
       rootfs_section st r ++ kernel_section st k r ++ uboot_section st k r
       ++ ramdisk_section st k r d ++ metadata_header_data st).
Proof.
  apply (checksum_field_of_image demo_argv demo_world
           (snd (script demo_argv demo_world))).
  vm_compute. reflexivity.
Defined.

(** * Failures and the order of the I/O operations *)

Lemma quiet_reads (l : list string) : quiet (map EvOpenRead l).
Proof. induction l; constructor; [reflexivity|assumption]. Qed.

Lemma quiet_before_write (argv : Cmdline) (m : Metadata) :
  quiet (map EvOpenRead (input_paths argv) ++ progress_lines m).
Proof.
  apply Forall_app. split; [apply quiet_reads|repeat constructor].
Qed.

Lemma quiet_has_no_write (t pre post : list event) (q : string) :
  quiet t -> t <> pre ++ EvOpenWrite q :: post.
Proof.
  intros Hq ->. apply Forall_app in Hq. destruct Hq as [_ Hq].
  inversion Hq as [|? ? Hw _]. discriminate Hw.
Qed.

Lemma write_is_last (t pre post : list event) (q o : string) :
  quiet t ->
  pre ++ EvOpenWrite q :: post = t ++ [EvOpenWrite o] ->
  pre = t /\ q = o /\ post = [].
Proof.
  revert pre. induction t as [|x t IH]; intros pre Hq H.
  - destruct pre as [|y pre]; simpl in H.
    + injection H as -> ->. auto.
    + injection H as _ H. now destruct pre.
  - inversion Hq as [|? ? Hx Hq']; subst.
    destruct pre as [|y pre]; simpl in H.
    + injection H as <- _. discriminate Hx.
    + injection H as -> H. destruct (IH pre Hq' H) as (-> & -> & ->). auto.
Qed.

(** C8: when an input file (a static blob, or the kernel, rootfs or
    ramdisk image named on the command line) cannot be read, the run ends
    in an exception, the file system is left as it was and no file is
    opened for writing.  In every run, a file is opened for writing only
    as the last operation, after every input has been read and the
    metadata block has been packed, and it is the output path. *)
Theorem missing_input_aborts (argv : Cmdline) (w : World) :
  let out := script argv w in
  (forall p : string,
      In p (input_paths argv) -> files w !! p = None ->
      (exists e, fst out = Raise e) /\
      files (snd out) = files w /\
      exists t, trace (snd out) = trace w ++ t /\ quiet t) /\
  (forall (pre post : list event) (q : string),
      trace (snd out) = trace w ++ pre ++ EvOpenWrite q :: post ->
      post = [] /\ cl_output argv = Some q /\
      (forall p : string,
          In p (input_paths argv) ->
          is_Some (files w !! p) /\ In (EvOpenRead p) pre) /\
      exists (st : Statics) (k r d blk : bytes),
        statics_in (files w) st /\ user_in argv (files w) q k r d /\
        pack_metadata (metadata_of st k r d) = Ok blk /\
        (fst out = Ok tt ->
         files (snd out) !! q =
           Some ((buf_checksummed st k r d ++ blk)
                 ++ metadata_footer_data st))).
Proof.
  intros out. unfold out.
  destruct (script_cases argv w)
    as [(o & st & k & r & d & Hst & Hu)|(e & t & Hq & _ & Hf)].
  - pose proof (script_run argv w o st k r d Hst Hu) as Hr.
    cbv zeta in Hr. split.
    { intros p Hp Hn.
      destruct (inputs_present argv (files w) o st k r d p Hst Hu Hp)
        as [b Hb].
      rewrite Hn in Hb. discriminate Hb. }
    intros pre post q Ht.
    pose proof (quiet_before_write argv (metadata_of st k r d)) as Hqt.
    destruct (pack_metadata (metadata_of st k r d)) as [blk|e] eqn:Hpk.
    + assert (Hw : pre ++ EvOpenWrite q :: post =
                   (map EvOpenRead (input_paths argv)
                    ++ progress_lines (metadata_of st k r d))
                   ++ [EvOpenWrite o]).
      { destruct (decide (o ∈ locked w)); rewrite Hr in Ht;
          cbn [snd trace logs] in Ht;
          apply app_inv_head in Ht; now symmetry. }
      destruct (write_is_last _ _ _ _ _ Hqt Hw) as (-> & -> & ->).
      split; [reflexivity|]. split; [apply Hu|]. split.
      { intros p Hp. split.
        - exact (inputs_present argv (files w) o st k r d p Hst Hu Hp).
        - apply in_or_app. left. now apply in_map. }
      exists st, k, r, d, blk.
      split; [exact Hst|]. split; [exact Hu|]. split; [exact Hpk|].
      rewrite Hr. destruct (decide (o ∈ locked w)); [discriminate|].
      intros _. cbn [snd files]. apply lookup_insert_eq.
    + rewrite Hr in Ht. cbn [snd trace logs] in Ht.
      apply app_inv_head in Ht.
      destruct (quiet_has_no_write _ _ _ _ Hqt Ht).
  - rewrite Hf. cbn [fst snd files trace logs]. split.
    + intros p _ _. split; [now exists e|]. split; [reflexivity|].
      now exists t.
    + intros pre post q Ht. apply app_inv_head in Ht.
      destruct (quiet_has_no_write _ _ _ _ Hq Ht).
Qed.

Lemma missing_input_aborts_witness :
  let argv := mkCmdline (Some "out.bin") (Some "absent.bin")
                        (Some "rootfs.bin") None in
  ((exists e, fst (script argv demo_world) = Raise e) /\
   files (snd (script argv demo_world)) = files demo_world /\
   exists t, trace (snd (script argv demo_world)) = trace demo_world ++ t /\
             quiet t) /\
  (let pre := map EvOpenRead (input_paths demo_argv)
              ++ progress_lines (metadata_of demo_statics demo_kernel
                                             demo_rootfs demo_kernel) in
   forall p : string,
     In p (input_paths demo_argv) ->
     is_Some (files demo_world !! p) /\ In (EvOpenRead p) pre).
Proof.
  intros argv. split.
  - apply (proj1 (missing_input_aborts argv demo_world) "absent.bin").
    + simpl. tauto.
    + reflexivity.
  - intros pre.
    apply (proj2 (missing_input_aborts demo_argv demo_world)
                 pre [] "out.bin").
    vm_compute. reflexivity.
Defined.

(** C9, as stated, fails: with [--kernel] absent the four static blobs
    have already been opened and read when the usage error is reported. *)
Lemma statics_read_before_usage_error :
  let argv := mkCmdline (Some "out.bin") None (Some "rootfs.bin") None in
  cl_kernel argv = None /\
  script argv demo_world =
    (Raise (SystemExit 2),
     mkWorld demo_files ∅
       [EvOpenRead "static/header.bin"; EvOpenRead "static/uboot.bin";
        EvOpenRead "static/metadata_header.bin";
        EvOpenRead "static/metadata_footer.bin"; EvUsageError]) /\
  exists pre post : list event,
    trace (snd (script argv demo_world)) = pre ++ EvUsageError :: post /\
    In (EvOpenRead "static/header.bin") pre.
Proof.
  intros argv. split; [reflexivity|]. split; [vm_compute; reflexivity|].
  exists (map EvOpenRead static_paths), []. split.
  - vm_compute. reflexivity.
  - simpl. tauto.
Qed.

(** C9, amended: when [--kernel] or [--rootfs] is absent and the four
    static blobs are readable, the run ends with the argument parser's
    exit status 2; before the usage error the script has read exactly the
    four static blobs, at module load; it reads no caller-supplied image,
    opens no file for writing and leaves the file system unchanged. *)
Theorem usage_error_after_statics (argv : Cmdline) (w : World) (st : Statics) :
  cl_kernel argv = None \/ cl_rootfs argv = None ->
  statics_in (files w) st ->
  script argv w =
    (Raise (SystemExit 2),
     logs (map EvOpenRead static_paths ++ [EvUsageError]) w).
Proof.
  intros Ha (Hh & Hu & Hmh & Hmf). unfold script.
  rewrite <- (logs_nil w) at 1.
  rewrite (bind_Ok _ _ _ _ _ (load_statics_Some w [] _ _ _ _ Hh Hu Hmh Hmf)).
  apply main_usage. tauto.
Qed.

Lemma usage_error_after_statics_witness :
  script (mkCmdline (Some "out.bin") (Some "kernel.bin") None None)
         demo_world =
    (Raise (SystemExit 2),
     logs (map EvOpenRead static_paths ++ [EvUsageError]) demo_world).
Proof.
  apply (usage_error_after_statics
           (mkCmdline (Some "out.bin") (Some "kernel.bin") None None)
           demo_world demo_statics).
  - right. reflexivity.
  - repeat split; reflexivity.
Defined.

(** * Further properties of the appender and the serializer *)

(** For any positive alignment, [append_data] returns the original buffer
    followed by the section and between 1 and [alignment] zero bytes; the
    new buffer's length is a multiple of the alignment and the returned
    length is the number of bytes appended. *)
Theorem append_data_positive_alignment (O S : bytes) (a : Z) :
  0 < a ->
  exists (buf : bytes) (n : Z),
    append_data O S a = Ok (buf, n) /\
    1 <= n - len S <= a /\
    buf = O ++ S ++ List.repeat x00 (Z.to_nat (n - len S)) /\
    len buf mod a = 0 /\
    n = len buf - len O.
Proof.
  intros Ha. unfold append_data.
  destruct (a =? 0) eqn:E; [apply Z.eqb_eq in E; lia|].
  set (p := a - (len O + len S) mod a).
  assert (Hp : 1 <= p <= a).
  { unfold p. pose proof (Z.mod_pos_bound (len O + len S) a Ha). lia. }
  assert (Hl : len (S ++ bytes_mul [x00] p) = len S + p).
  { rewrite len_app, bytes_mul_zero. unfold len at 2.
    rewrite repeat_length. lia. }
  eexists _, _. split; [reflexivity|]. rewrite Hl.
  replace (len S + p - len S) with p by lia.
  split; [exact Hp|]. split; [now rewrite bytes_mul_zero|]. split.
  - rewrite len_app, Hl. unfold p.
    replace (len O + (len S + (a - (len O + len S) mod a)))
      with ((len O + len S) - (len O + len S) mod a + 1 * a) by lia.
    rewrite Z.mod_add by lia.
    rewrite Zminus_mod, Z.mod_mod, Z.sub_diag by lia. apply Z.mod_0_l. lia.
  - rewrite len_app, Hl. lia.
Qed.

Lemma append_data_positive_alignment_witness :
  exists (buf : bytes) (n : Z),
    append_data [x01; x02; x03] [x04; x05] 4 = Ok (buf, n) /\
    1 <= n - 2 <= 4 /\
    buf = [x01; x02; x03] ++ [x04; x05]
          ++ List.repeat x00 (Z.to_nat (n - 2)) /\
    len buf mod 4 = 0 /\
    n = len buf - 3.
Proof.
  apply (append_data_positive_alignment [x01; x02; x03] [x04; x05] 4). lia.
Defined.

(** Alignment zero makes [append_data] raise [ZeroDivisionError]; with a
    negative alignment the padding count is negative, so no padding at all
    is appended and the raw length is returned. *)
Theorem append_data_degenerate_alignment (O S : bytes) (a : Z) :
  a <= 0 ->
  append_data O S a =
    if a =? 0 then Raise ZeroDivisionError else Ok (O ++ S, len S).
Proof.
  intros Ha. unfold append_data.
  destruct (a =? 0) eqn:E; [reflexivity|].
  apply Z.eqb_neq in E.
  assert (Hn : a - (len O + len S) mod a < 0).
  { pose proof (Z.mod_neg_bound (len O + len S) a). lia. }
  rewrite bytes_mul_zero.
  replace (Z.to_nat (a - (len O + len S) mod a)) with 0%nat by lia.
  cbn [List.repeat]. now rewrite app_nil_r.
Qed.

Lemma append_data_degenerate_alignment_witness :
  append_data [x01] [x02] 0 = Raise ZeroDivisionError /\
  append_data [x01] [x02] (-16) = Ok ([x01; x02], 1).
Proof.
  split.
  - apply (append_data_degenerate_alignment [x01] [x02] 0). lia.
  - apply (append_data_degenerate_alignment [x01] [x02] (-16)). lia.
Defined.

(** [pack_metadata] loses nothing: a record that fits its fields is
    serialized to a block that no other record is serialized to. *)
Theorem pack_metadata_injective (m1 m2 : Metadata) :
  fits m1 -> m1 <> m2 -> pack_metadata m1 <> pack_metadata m2.
Proof.
  intros Hf Hne Heq. apply Hne.
  rewrite (pack_metadata_fits m1 Hf) in Heq. symmetry in Heq.
  apply pack_metadata_inv in Heq. destruct Heq as [Hf2 Hb].
  pose proof (fun i word H => metadata_block_word m1 i word Hf H) as W1.
  pose proof (fun i word H => metadata_block_word m2 i word Hf2 H) as W2.
  rewrite <- Hb in W2.
  destruct m1 as [c1 p1 s1 u1 b1], m2 as [c2 p2 s2 u2 b2].
  pose proof (W1 0%nat _ eq_refl) as A0. rewrite (W2 0%nat _ eq_refl) in A0.
  pose proof (W1 1%nat _ eq_refl) as A1. rewrite (W2 1%nat _ eq_refl) in A1.
  pose proof (W1 2%nat _ eq_refl) as A2. rewrite (W2 2%nat _ eq_refl) in A2.
  pose proof (W1 3%nat _ eq_refl) as A3. rewrite (W2 3%nat _ eq_refl) in A3.
  pose proof (W1 8%nat _ eq_refl) as A8. rewrite (W2 8%nat _ eq_refl) in A8.
  cbn in A0, A1, A2, A3, A8. f_equal; lia.
Qed.

Lemma pack_metadata_injective_witness :
  pack_metadata (mkMetadata 1 32 32 16 32) <>
  pack_metadata (mkMetadata 1 32 32 16 48).
Proof.
  apply (pack_metadata_injective (mkMetadata 1 32 32 16 32)
                                 (mkMetadata 1 32 32 16 48)).
  - unfold fits; simpl; lia.
  - discriminate.
Defined.

(** The checksum always fits the four bytes reserved for it: converting a
    CRC-32 to four little-endian bytes never raises, and the bytes read
    back as the checksum. *)
Theorem checksum_fits_its_field (data : bytes) :
  exists b : bytes,
    to_bytes (crc32 data) 4 = Ok b /\
    length b = 4%nat /\
    from_bytes b = crc32 data.
Proof.
  pose proof (crc32_range data) as Hr.
  exists (le_digits 4 (crc32 data)).
  split; [apply to_bytes_ok; exact Hr|].
  split; [apply length_le_digits|]. now apply from_bytes_word.
Qed.

(** * Further properties of a run *)

Lemma len_padded_bound (original data : bytes) :
  len data < len (padded original data) <= len data + 16.
Proof.
  rewrite len_padded. pose proof (padding_range original data). lia.
Qed.




(** An empty [--ramdisk] value is treated exactly like an omitted one: the
    kernel image is used twice and no third image is opened. *)
Theorem empty_ramdisk_is_default (o k r : option string) (w : World) :
  script (mkCmdline o k r (Some EmptyString)) w =
  script (mkCmdline o k r None) w.
Proof.
  unfold script, bind. destruct (load_statics w) as [[st|e] w1]; [|reflexivity].
  unfold main, parse_args. cbn [cl_output cl_kernel cl_rootfs cl_ramdisk].
  destruct o as [o|], k as [k|], r as [r|]; reflexivity.
Qed.

(** When the output path cannot be opened for writing, the run fails with
    [OSError] on that path only after every input has been read and the
    four progress lines have been printed, and the file system is left as
    it was. *)
Theorem locked_output_aborts (argv : Cmdline) (w : World) (o : string)
        (st : Statics) (k r d : bytes) :
  statics_in (files w) st -> user_in argv (files w) o k r d ->
  fits (metadata_of st k r d) -> o ∈ locked w ->
  script argv w =
    (Raise (OSError o),
     logs ((map EvOpenRead (input_paths argv)
            ++ progress_lines (metadata_of st k r d))
           ++ [EvOpenWrite o]) w).
Proof.
  intros Hst Hu Hf Hl. rewrite (script_run argv w o st k r d Hst Hu).
  rewrite (pack_metadata_fits _ Hf).
  destruct (decide (o ∈ locked w)); [reflexivity|contradiction].
Qed.

Lemma locked_output_aborts_witness :
  let w := mkWorld demo_files {["out.bin"]} [] in
  script demo_argv w =
    (Raise (OSError "out.bin"),
     logs ((map EvOpenRead (input_paths demo_argv)
            ++ progress_lines
                 (metadata_of demo_statics demo_kernel demo_rootfs
                              demo_kernel))
           ++ [EvOpenWrite "out.bin"]) w).
Proof.
  intros w.
  apply (locked_output_aborts demo_argv w "out.bin" demo_statics
           demo_kernel demo_rootfs demo_kernel).
  - repeat split; reflexivity.
  - split; [reflexivity|]. split; [exists "kernel.bin"; split; reflexivity|].
    split; [exists "rootfs.bin"; split; reflexivity|]. reflexivity.
  - unfold fits. vm_compute. repeat split; discriminate.
  - vm_compute. reflexivity.
Defined.





Lemma static_missing_run (argv : Cmdline) (w : World)
        (n : nat) (p : string) :
  static_paths !! n = Some p ->
  files w !! p = None ->
  (forall (i : nat) (q : string),
      (i < n)%nat -> static_paths !! i = Some q -> is_Some (files w !! q)) ->
  script argv w =
    (Raise (OSError p), logs (map EvOpenRead (take (S n) static_paths)) w).
Proof.
  intros Hp Hn Hprev. unfold script. rewrite <- (logs_nil w) at 1.
  apply bind_Raise. unfold load_statics.
  destruct n as [|n].
  { injection Hp as <-. apply bind_Raise. exact (load_binary_None _ [] w Hn). }
  destruct (Hprev 0%nat _ ltac:(lia) eq_refl) as [h Hh].
  rewrite (bind_Ok _ _ _ _ _ (load_binary_Some _ _ _ _ Hh)).
  destruct n as [|n].
  { injection Hp as <-. apply bind_Raise.
    exact (load_binary_None _ _ w Hn). }
  destruct (Hprev 1%nat _ ltac:(lia) eq_refl) as [u Hu].
  rewrite (bind_Ok _ _ _ _ _ (load_binary_Some _ _ _ _ Hu)).
  destruct n as [|n].
  { injection Hp as <-. apply bind_Raise.
    exact (load_binary_None _ _ w Hn). }
  destruct (Hprev 2%nat _ ltac:(lia) eq_refl) as [mh Hmh].
  rewrite (bind_Ok _ _ _ _ _ (load_binary_Some _ _ _ _ Hmh)).
  destruct n as [|n].
  { injection Hp as <-. apply bind_Raise.
    exact (load_binary_None _ _ w Hn). }
  discriminate Hp.
Qed.

(** A static blob that cannot be read ends the run before the command
    line is even looked at: the error is [OSError] on the first unreadable
    blob, whatever the arguments, and nothing after it is opened. *)
Theorem missing_static_blob_reported_first (argv : Cmdline) (w : World)
        (n : nat) (p : string) :
  static_paths !! n = Some p ->
  files w !! p = None ->
  (forall (i : nat) (q : string),
      (i < n)%nat -> static_paths !! i = Some q -> is_Some (files w !! q)) ->
  script argv w =
    (Raise (OSError p), logs (map EvOpenRead (take (S n) static_paths)) w).
Proof. exact (static_missing_run argv w n p). Qed.

Lemma missing_static_blob_reported_first_witness :
  let w := mkWorld (delete "static/uboot.bin" demo_files) ∅ [] in
  script (mkCmdline None None None None) w =
    (Raise (OSError "static/uboot.bin"),
     logs [EvOpenRead "static/header.bin"; EvOpenRead "static/uboot.bin"] w).
Proof.
  intros w.
  apply (missing_static_blob_reported_first
           (mkCmdline None None None None) w 1 "static/uboot.bin").
  - reflexivity.
  - vm_compute. reflexivity.
  - intros i q Hi Hq. destruct i as [|i]; [|lia].
    injection Hq as <-. eexists. vm_compute. reflexivity.
Defined.

Lemma image_missing_run (argv : Cmdline) (w : World)
        (st : Statics) (o kp rp : string) (n : nat) (p : string) :
  statics_in (files w) st ->
  cl_output argv = Some o -> cl_kernel argv = Some kp ->
  cl_rootfs argv = Some rp ->
  user_paths argv !! n = Some p ->
  files w !! p = None ->
  (forall (i : nat) (q : string),
      (i < n)%nat -> user_paths argv !! i = Some q ->
      is_Some (files w !! q)) ->
  script argv w =
    (Raise (OSError p),
     logs (map EvOpenRead (static_paths ++ take (S n) (user_paths argv))) w).
Proof.
  intros (Hh & Hu & Hmh & Hmf) Ho Hk Hr Hp Hn Hprev.
  unfold script. rewrite <- (logs_nil w) at 1.
  destruct st as [h u mh mf]. cbn [header_data uboot_data
    metadata_header_data metadata_footer_data] in Hh, Hu, Hmh, Hmf.
  rewrite (bind_Ok _ _ _ _ _ (load_statics_Some w [] _ _ _ _ Hh Hu Hmh Hmf)).
  unfold main, parse_args. rewrite Ho, Hk, Hr. cbv beta iota.
  rewrite bind_ret. apply bind_Raise.
  unfold load_user_data. cbn [kernel rootfs ramdisk].
  unfold user_paths in *. rewrite Hk, Hr in *.
  destruct n as [|n].
  { injection Hp as <-.
    rewrite (bind_Raise _ _ _ _ _ (load_binary_None _ _ w Hn)).
    reflexivity. }
  destruct (Hprev 0%nat _ ltac:(lia) eq_refl) as [k Hkd].
  rewrite (bind_Ok _ _ _ _ _ (load_binary_Some _ _ _ _ Hkd)).
  destruct n as [|n].
  { injection Hp as <-.
    rewrite (bind_Raise _ _ _ _ _ (load_binary_None _ _ w Hn)).
    reflexivity. }
  destruct (Hprev 1%nat _ ltac:(lia) eq_refl) as [r Hrd].
  rewrite (bind_Ok _ _ _ _ _ (load_binary_Some _ _ _ _ Hrd)).
  destruct (truthy (cl_ramdisk argv)) as [q|]; [|discriminate Hp].
  destruct n as [|n]; [|discriminate Hp].
  injection Hp as <-.
  rewrite (bind_Raise _ _ _ _ _ (load_binary_None _ _ w Hn)).
  reflexivity.
Qed.

(** With the static blobs readable and the required arguments present,
    the images are opened in the order kernel, rootfs, ramdisk, and the
    first one that cannot be read is the one reported: the run fails with
    [OSError] on it and no later image is opened. *)
Theorem first_missing_image_reported (argv : Cmdline) (w : World)
        (st : Statics) (o kp rp : string) (n : nat) (p : string) :
  statics_in (files w) st ->
  cl_output argv = Some o -> cl_kernel argv = Some kp ->
  cl_rootfs argv = Some rp ->
  user_paths argv !! n = Some p ->
  files w !! p = None ->
  (forall (i : nat) (q : string),
      (i < n)%nat -> user_paths argv !! i = Some q ->
      is_Some (files w !! q)) ->
  script argv w =
    (Raise (OSError p),
     logs (map EvOpenRead (static_paths ++ take (S n) (user_paths argv))) w).
Proof. exact (image_missing_run argv w st o kp rp n p). Qed.

Lemma first_missing_image_reported_witness :
  let argv := mkCmdline (Some "out.bin") (Some "absent.bin")
                        (Some "also-absent.bin") (Some "ramdisk.bin") in
  script argv demo_world =
    (Raise (OSError "absent.bin"),
     logs (map EvOpenRead (static_paths ++ ["absent.bin"])) demo_world).
Proof.
  intros argv.
  apply (first_missing_image_reported argv demo_world demo_statics
           "out.bin" "absent.bin" "also-absent.bin" 0 "absent.bin").
  - repeat split; reflexivity.
  - reflexivity.
  - reflexivity.
  - reflexivity.
  - reflexivity.
  - reflexivity.
  - intros i q Hi. lia.
Defined.

(** * Further properties of the written image *)

Lemma padded_same_residue (o1 o2 data : bytes) :
  len o1 mod 16 = len o2 mod 16 -> padded o1 data = padded o2 data.
Proof.
  intros H. unfold padded, padding.
  rewrite (Z.add_mod (len o1)), (Z.add_mod (len o2)), H by lia.
  reflexivity.
Qed.

Lemma buffers_aligned (st : Statics) (k r d : bytes) :
  len (buf_rootfs st r) mod 16 = 0 /\
  len (buf_kernel st k r) mod 16 = 0 /\
  len (buf_uboot st k r) mod 16 = 0 /\
  len (buf_ramdisk st k r d) mod 16 = 0.
Proof. repeat split; apply len_padded_total. Qed.

Lemma packed_size_words (m : Metadata) (blk : bytes) :
  pack_metadata m = Ok blk ->
  from_bytes (take 4 (drop 4 blk)) = primary_kernel_size m /\
  from_bytes (take 4 (drop 12 blk)) = uboot_size m /\
  from_bytes (take 4 (drop 32 blk)) = backup_kernel_size m + 40.
Proof.
  intros H. apply pack_metadata_inv in H. destruct H as [Hf ->].
  split; [exact (metadata_block_word m 1 _ Hf eq_refl)|].
  split; [exact (metadata_block_word m 3 _ Hf eq_refl)|].
  exact (metadata_block_word m 8 _ Hf eq_refl).
Qed.

(** On a successful run the second, fourth and ninth words of the metadata
    block in the written image read back as the padded lengths of the
    kernel and uboot sections and the padded length of the secondary
    kernel section plus 40. *)
Theorem written_size_words (argv : Cmdline) (w w' : World) :
  script argv w = (Ok tt, w') ->
  exists (o : string) (st : Statics) (k r d blk : bytes),
    statics_in (files w) st /\ user_in argv (files w) o k r d /\
    files w' !! o =
      Some ((buf_checksummed st k r d ++ blk) ++ metadata_footer_data st) /\
    length blk = 44%nat /\
    from_bytes (take 4 (drop 4 blk)) = len (kernel_section st k r) /\
    from_bytes (take 4 (drop 12 blk)) = len (uboot_section st k r) /\
    from_bytes (take 4 (drop 32 blk)) = len (ramdisk_section st k r d) + 40.
Proof.
  intros H. apply script_success in H.
  destruct H as (o & st & k & r & d & blk & Hst & Hu & Hp & ->).
  exists o, st, k, r, d, blk.
  split; [exact Hst|]. split; [exact Hu|].
  split; [cbn [files]; apply lookup_insert_eq|].
  split; [apply (packed_fields _ _ Hp)|].
  exact (packed_size_words _ _ Hp).
Qed.

Lemma written_size_words_witness :
  exists (o : string) (st : Statics) (k r d blk : bytes),
    statics_in (files demo_world) st /\
    user_in demo_argv (files demo_world) o k r d /\
    files (snd (script demo_argv demo_world)) !! o =
      Some ((buf_checksummed st k r d ++ blk) ++ metadata_footer_data st) /\
    length blk = 44%nat /\
    from_bytes (take 4 (drop 4 blk)) = len (kernel_section st k r) /\
    from_bytes (take 4 (drop 12 blk)) = len (uboot_section st k r) /\
    from_bytes (take 4 (drop 32 blk)) = len (ramdisk_section st k r d) + 40.
Proof.
  apply (written_size_words demo_argv demo_world
           (snd (script demo_argv demo_world))).
  vm_compute. reflexivity.
Defined.

(** When the header blob's length is a multiple of 16, every section of a
    successful run has a length that is a multiple of 16, strictly larger
    than its raw image and at most 16 bytes larger: an image that already
    fills whole blocks still gets a full block of padding, and an empty
    image becomes a 16-byte section. *)
Theorem sections_aligned_in_run (argv : Cmdline) (w w' : World) (h : bytes) :
  script argv w = (Ok tt, w') ->
  files w !! "static/header.bin" = Some h ->
  len h mod 16 = 0 ->
  exists (o : string) (st : Statics) (k r d blk : bytes),
    statics_in (files w) st /\ user_in argv (files w) o k r d /\
    files w' !! o =
      Some ((header_data st ++ rootfs_section st r ++ kernel_section st k r
             ++ uboot_section st k r ++ ramdisk_section st k r d
             ++ metadata_header_data st ++ blk)
            ++ metadata_footer_data st) /\
    (len (rootfs_section st r) mod 16 = 0 /\
     len r < len (rootfs_section st r) <= len r + 16) /\
    (len (kernel_section st k r) mod 16 = 0 /\
     len k < len (kernel_section st k r) <= len k + 16) /\
    (len (uboot_section st k r) mod 16 = 0 /\
     len (uboot_data st) < len (uboot_section st k r)
       <= len (uboot_data st) + 16) /\
    (len (ramdisk_section st k r d) mod 16 = 0 /\
     len d < len (ramdisk_section st k r d) <= len d + 16).
Proof.
  intros H Hh Hal. apply script_success in H.
  destruct H as (o & st & k & r & d & blk & Hst & Hu & Hp & ->).
  exists o, st, k, r, d, blk.
  split; [exact Hst|]. split; [exact Hu|]. split.
  { cbn [files]. rewrite lookup_insert_eq, buf_checksummed_sections.
    now rewrite <- !app_assoc. }
  assert (Hh' : header_data st = h).
  { destruct Hst as (Hst & _). rewrite Hh in Hst. now injection Hst. }
  destruct (buffers_aligned st k r d) as (B1 & B2 & B3 & _).
  unfold rootfs_section, kernel_section, uboot_section, ramdisk_section.
  repeat split; try apply len_padded_bound; apply len_padded_aligned;
    [rewrite Hh'|..]; assumption.
Qed.

Lemma sections_aligned_in_run_witness :
  exists (o : string) (st : Statics) (k r d blk : bytes),
    statics_in (files demo_world) st /\
    user_in demo_argv (files demo_world) o k r d /\
    files (snd (script demo_argv demo_world)) !! o =
      Some ((header_data st ++ rootfs_section st r ++ kernel_section st k r
             ++ uboot_section st k r ++ ramdisk_section st k r d
             ++ metadata_header_data st ++ blk)
            ++ metadata_footer_data st) /\
    (len (rootfs_section st r) mod 16 = 0 /\
     len r < len (rootfs_section st r) <= len r + 16) /\
    (len (kernel_section st k r) mod 16 = 0 /\
     len k < len (kernel_section st k r) <= len k + 16) /\
    (len (uboot_section st k r) mod 16 = 0 /\
     len (uboot_data st) < len (uboot_section st k r)
       <= len (uboot_data st) + 16) /\
    (len (ramdisk_section st k r d) mod 16 = 0 /\
     len d < len (ramdisk_section st k r d) <= len d + 16).
Proof.
  apply (sections_aligned_in_run demo_argv demo_world
           (snd (script demo_argv demo_world)) (List.repeat x00 32)).
  - vm_compute. reflexivity.
  - reflexivity.
  - reflexivity.
Defined.

(** The written image is the inputs plus a bounded overhead: its length is
    the lengths of the header, the four raw images, the two templates and
    the 44-byte metadata block, plus between 4 and 64 bytes of padding;
    and whatever the header's length, the image up to the end of the
    secondary-kernel section is a whole number of 16-byte blocks. *)
Theorem written_image_length (argv : Cmdline) (w w' : World) :
  script argv w = (Ok tt, w') ->
  exists (o : string) (st : Statics) (k r d img : bytes),
    statics_in (files w) st /\ user_in argv (files w) o k r d /\
    files w' !! o = Some img /\
    let raw := len (header_data st) + len r + len k + len (uboot_data st)
               + len d + len (metadata_header_data st) + 44
               + len (metadata_footer_data st) in
    raw + 4 <= len img <= raw + 64 /\
    (len img - len (metadata_header_data st) - 44
     - len (metadata_footer_data st)) mod 16 = 0.
Proof.
  intros H. apply script_success in H.
  destruct H as (o & st & k & r & d & blk & Hst & Hu & Hp & ->).
  exists o, st, k, r, d. eexists.
  split; [exact Hst|]. split; [exact Hu|].
  split; [cbn [files]; apply lookup_insert_eq|].
  destruct (packed_fields _ _ Hp) as (Hl & _ & _).
  assert (Hb : len blk = 44) by (unfold len; rewrite Hl; reflexivity).
  destruct (buffers_aligned st k r d) as (_ & _ & _ & B4).
  cbv zeta. rewrite !len_app, Hb. unfold buf_checksummed.
  rewrite len_app. split.
  - unfold buf_ramdisk, buf_uboot, buf_kernel, buf_rootfs.
    rewrite !len_app.
    pose proof (len_padded_bound (header_data st) r).
    pose proof (len_padded_bound (buf_rootfs st r) k).
    pose proof (len_padded_bound (buf_kernel st k r) (uboot_data st)).
    pose proof (len_padded_bound (buf_uboot st k r) d).
    unfold rootfs_section, kernel_section, uboot_section, ramdisk_section.
    lia.
  - replace (len (buf_ramdisk st k r d) + len (metadata_header_data st) + 44
             + len (metadata_footer_data st) - len (metadata_header_data st)
             - 44 - len (metadata_footer_data st))
      with (len (buf_ramdisk st k r d)) by lia.
    exact B4.
Qed.

Lemma written_image_length_witness :
  exists (o : string) (st : Statics) (k r d img : bytes),
    statics_in (files demo_world) st /\
    user_in demo_argv (files demo_world) o k r d /\
    files (snd (script demo_argv demo_world)) !! o = Some img /\
    let raw := len (header_data st) + len r + len k + len (uboot_data st)
               + len d + len (metadata_header_data st) + 44
               + len (metadata_footer_data st) in
    raw + 4 <= len img <= raw + 64 /\
    (len img - len (metadata_header_data st) - 44
     - len (metadata_footer_data st)) mod 16 = 0.
Proof.
  apply (written_image_length demo_argv demo_world
           (snd (script demo_argv demo_world))).
  vm_compute. reflexivity.
Defined.

(** Without a ramdisk (no [--ramdisk], or an empty one) the secondary
    kernel section is byte for byte the kernel section, padding included,
    whatever the header's length; so the ninth word of the metadata block
    is its second word plus 40. *)
Theorem default_secondary_section (argv : Cmdline) (w w' : World) :
  script argv w = (Ok tt, w') ->
  truthy (cl_ramdisk argv) = None ->
  exists (o : string) (st : Statics) (k r blk : bytes),
    statics_in (files w) st /\ user_in argv (files w) o k r k /\
    files w' !! o =
      Some ((buf_checksummed st k r k ++ blk) ++ metadata_footer_data st) /\
    ramdisk_section st k r k = kernel_section st k r /\
    from_bytes (take 4 (drop 32 blk)) = from_bytes (take 4 (drop 4 blk)) + 40.
Proof.
  intros H Hno. apply script_success in H.
  destruct H as (o & st & k & r & d & blk & Hst & Hu & Hp & ->).
  assert (d = k) as ->.
  { destruct Hu as (_ & _ & _ & Hd). unfold secondary in Hd.
    rewrite Hno in Hd. now injection Hd. }
  exists o, st, k, r, blk.
  split; [exact Hst|]. split; [exact Hu|].
  split; [cbn [files]; apply lookup_insert_eq|].
  assert (Hs : ramdisk_section st k r k = kernel_section st k r).
  { unfold ramdisk_section, kernel_section.
    destruct (buffers_aligned st k r k) as (B1 & _ & B3 & _).
    apply padded_same_residue. now rewrite B1, B3. }
  split; [exact Hs|].
  destruct (packed_size_words _ _ Hp) as (H1 & _ & H8).
  rewrite H1, H8. cbn [backup_kernel_size primary_kernel_size metadata_of].
  now rewrite Hs.
Qed.

Lemma default_secondary_section_witness :
  exists (o : string) (st : Statics) (k r blk : bytes),
    statics_in (files demo_world) st /\
    user_in demo_argv (files demo_world) o k r k /\
    files (snd (script demo_argv demo_world)) !! o =
      Some ((buf_checksummed st k r k ++ blk) ++ metadata_footer_data st) /\
    ramdisk_section st k r k = kernel_section st k r /\
    from_bytes (take 4 (drop 32 blk)) = from_bytes (take 4 (drop 4 blk)) + 40.
Proof.
  apply (default_secondary_section demo_argv demo_world
           (snd (script demo_argv demo_world))).
  - vm_compute. reflexivity.
  - reflexivity.
Defined.

(** * Console output and the files a run touches *)

(** A successful run performs, in this order: one read of each input path
    (the four static blobs, the kernel, the rootfs, and the ramdisk only
    when one is given), four progress lines, and one open of the output
    path.  The sizes printed are the ones stored in the metadata block of
    the written image; the ramdisk line shows the stored word less the 40
    added to it. *)
Theorem progress_lines_report_recorded_sizes (argv : Cmdline) (w w' : World) :
  script argv w = (Ok tt, w') ->
  exists (o : string) (st : Statics) (k r d blk : bytes),
    statics_in (files w) st /\ user_in argv (files w) o k r d /\
    files w' !! o =
      Some ((buf_checksummed st k r d ++ blk) ++ metadata_footer_data st) /\
    length blk = 44%nat /\
    trace w' =
      trace w ++ map EvOpenRead (input_paths argv)
      ++ [EvPrint (size_line "Rootfs" (from_bytes (take 4 (drop 8 blk))));
          EvPrint (size_line "Kernel" (from_bytes (take 4 (drop 4 blk))));
          EvPrint (size_line "Uboot" (from_bytes (take 4 (drop 12 blk))));
          EvPrint (size_line "Ramdisk"
                     (from_bytes (take 4 (drop 32 blk)) - 40))]
      ++ [EvOpenWrite o].
Proof.
  intros H. apply script_success in H.
  destruct H as (o & st & k & r & d & blk & Hst & Hu & Hp & ->).
  exists o, st, k, r, d, blk.
  split; [exact Hst|]. split; [exact Hu|].
  split; [cbn [files]; apply lookup_insert_eq|].
  destruct (packed_fields _ _ Hp) as (Hl & _ & H2).
  destruct (packed_size_words _ _ Hp) as (H1 & H3 & H8).
  split; [exact Hl|].
  rewrite H1, H2, H3, H8, Z.add_simpl_r.
  cbn [trace]. unfold progress_lines. now rewrite <- !app_assoc.
Qed.

Lemma progress_lines_report_recorded_sizes_witness :
  exists (o : string) (st : Statics) (k r d blk : bytes),
    statics_in (files demo_world) st /\
    user_in demo_argv (files demo_world) o k r d /\
    files (snd (script demo_argv demo_world)) !! o =
      Some ((buf_checksummed st k r d ++ blk) ++ metadata_footer_data st) /\
    length blk = 44%nat /\
    trace (snd (script demo_argv demo_world)) =
      trace demo_world ++ map EvOpenRead (input_paths demo_argv)
      ++ [EvPrint (size_line "Rootfs" (from_bytes (take 4 (drop 8 blk))));
          EvPrint (size_line "Kernel" (from_bytes (take 4 (drop 4 blk))));
          EvPrint (size_line "Uboot" (from_bytes (take 4 (drop 12 blk))));
          EvPrint (size_line "Ramdisk"
                     (from_bytes (take 4 (drop 32 blk)) - 40))]
      ++ [EvOpenWrite "out.bin"].
Proof.
  destruct (progress_lines_report_recorded_sizes demo_argv demo_world
              (snd (script demo_argv demo_world)))
    as (o & st & k & r & d & blk & H1 & H2 & H3 & H4 & H5).
  { vm_compute. reflexivity. }
  assert (Ho : o = "out.bin").
  { destruct H2 as (Ho & _). now injection Ho. }
  subst o. exists "out.bin", st, k, r, d, blk.
  split; [exact H1|]. split; [exact H2|]. split; [exact H3|].
  split; [exact H4|exact H5].
Defined.




